(** * BAC0 core I/O: ReadProperty, ReadPropertyMultiple and WriteProperty

    A shallow embedding of [BAC0/core/io/Read.py] and [BAC0/core/io/Write.py].

    The two files drive three collaborators that live outside the repository:
    the Python interpreter (string methods, [int], [float], the recursion
    limit), the [bacpypes] library (datatype registry, reason tables, value
    classes, [cast_in]/[cast_out]) and the BACnet stack that carries a request
    to a device and hands back an IOCB.  They are kept as parameters ([Env],
    [Gateway]) or, for objects the device returns, as data that carries its own
    methods ([Any]).  Strings are ASCII ([string]). *)

From Stdlib Require Import ZArith List String Ascii Bool Lia.
From Stdlib Require Import DecimalString.
Import ListNotations.

Local Open Scope string_scope.
Local Open Scope Z_scope.

Set Warnings "-register-all".

(* ------------------------------------------------------------------------- *)
(** ** The Python fragment the code relies on *)

Module Py.

(** Exceptions the code raises itself, the interpreter raises on its behalf,
    or a library call raises ([LibraryError]). *)
Inductive Exc : Type :=
| ApplicationNotStarted (msg : string)
| NoResponseFromController (msg : string)
| UnrecognizedService
| SegmentationNotSupported
| TypeError (msg : string)
| ValueError (msg : string)
| RuntimeError (msg : string)
| IndexError (msg : string)
| NameError (name : string)
| RecursionError
| LibraryError (what : string).

(** Outcome of a call: a returned value or a raised exception. *)
Inductive Res (A : Type) : Type :=
| Return (a : A)
| Raise (e : Exc).
Arguments Return {A} a.
Arguments Raise {A} e.

Definition res_bind {A B} (r : Res A) (k : A -> Res B) : Res B :=
  match r with
  | Return a => k a
  | Raise e => Raise e
  end.

(** Values that travel through [read] and [readMultiple].  A float is kept as
    its binary64 bit pattern: the code never computes with one. *)
Inductive Val : Type :=
| VNone
| VBool (b : bool)
| VInt (z : Z)
| VFloat (bits : Z)
| VStr (s : string)
| VList (l : list Val)
| VTuple (l : list Val).

(** *** [str] methods *)

Definition is_space (c : ascii) : bool :=
  let n := Z.of_nat (nat_of_ascii c) in
  ((9 <=? n) && (n <=? 13)) || ((28 <=? n) && (n <=? 32)).

Definition is_digit (c : ascii) : bool :=
  let n := Z.of_nat (nat_of_ascii c) in
  (48 <=? n) && (n <=? 57).

Definition digit_val (c : ascii) : Z := Z.of_nat (nat_of_ascii c) - 48.

(** [s.split()]: the maximal runs of non-whitespace characters, in order.
    [cur] is the run being read, if any. *)
Fixpoint split_from (cur : option string) (s : string) : list string :=
  match s with
  | EmptyString =>
      match cur with
      | Some w => [w]
      | None => []
      end
  | String c rest =>
      if is_space c then
        match cur with
        | Some w => w :: split_from None rest
        | None => split_from None rest
        end
      else
        let w := match cur with Some w => w | None => EmptyString end in
        split_from (Some (w ++ String c EmptyString)) rest
  end.

Definition split (s : string) : list string := split_from None s.

Fixpoint all_digits (s : string) : bool :=
  match s with
  | EmptyString => true
  | String c rest => is_digit c && all_digits rest
  end.

(** [s.isdigit()]: at least one character, all of them digits.  The tokens
    are taken to be ASCII text; digits of other scripts are not modelled. *)
Definition isdigit (s : string) : bool :=
  match s with
  | EmptyString => false
  | _ => all_digits s
  end.

(** *** [int(s)]

    Optional surrounding whitespace, an optional sign, then decimal digits in
    which single underscores may separate digits. *)

Inductive IntLex : Type := AtStart | AfterDigit | AfterUnderscore.

Fixpoint int_digits (st : IntLex) (acc : Z) (s : string) : option Z :=
  match s with
  | EmptyString =>
      match st with
      | AfterDigit => Some acc
      | _ => None
      end
  | String c rest =>
      if is_digit c then int_digits AfterDigit (10 * acc + digit_val c) rest
      else if Ascii.eqb c "_"%char then
        match st with
        | AfterDigit => int_digits AfterUnderscore acc rest
        | _ => None
        end
      else None
  end.

Fixpoint lstrip (s : string) : string :=
  match s with
  | String c rest => if is_space c then lstrip rest else s
  | EmptyString => EmptyString
  end.

(** Drops trailing whitespace: [None] stands for a suffix that is blank. *)
Fixpoint rstrip_opt (s : string) : option string :=
  match s with
  | EmptyString => None
  | String c rest =>
      match rstrip_opt rest with
      | Some r => Some (String c r)
      | None => if is_space c then None else Some (String c EmptyString)
      end
  end.

Definition strip (s : string) : string :=
  match rstrip_opt (lstrip s) with
  | Some r => r
  | None => EmptyString
  end.

Definition parse_int (s : string) : option Z :=
  match strip s with
  | String "-"%char rest => option_map Z.opp (int_digits AtStart 0 rest)
  | String "+"%char rest => int_digits AtStart 0 rest
  | body => int_digits AtStart 0 body
  end.

(** The number of digit characters of a literal: sign, underscores and
    surrounding whitespace are not counted. *)
Fixpoint count_digits (s : string) : Z :=
  match s with
  | EmptyString => 0
  | String c rest => (if is_digit c then 1 else 0) + count_digits rest
  end.

(** [sys.get_int_max_str_digits()], at its default. *)
Definition int_max_str_digits : Z := 4300.

(** A well-formed literal of more than [int_max_str_digits] digits is refused
    (Python 3.11 and later). *)
Definition int (s : string) : Res Z :=
  match parse_int s with
  | Some z =>
      if count_digits s <=? int_max_str_digits then Return z
      else Raise (ValueError
                    "Exceeds the limit (4300 digits) for integer string conversion")
  | None => Raise (ValueError "invalid literal for int() with base 10")
  end.

(** [str(z)] for an integer. *)
Definition str_of_int (z : Z) : string := NilZero.string_of_int (Z.to_int z).

(** [x + 1] as [_split_the_read_request] needs it: defined on integers and
    booleans; on a float the sum exists but [range] refuses it. *)
Definition range_stop (x : Val) : Res Z :=
  match x with
  | VInt n => Return (n + 1)
  | VBool b => Return ((if b then 1 else 0) + 1)
  | VFloat _ => Raise (TypeError "'float' object cannot be interpreted as an integer")
  | VNone => Raise (TypeError "unsupported operand type(s) for +: 'NoneType' and 'int'")
  | VStr _ => Raise (TypeError "can only concatenate str (not int) to str")
  | VList _ => Raise (TypeError "can only concatenate list (not int) to list")
  | VTuple _ => Raise (TypeError "can only concatenate tuple (not int) to tuple")
  end.

End Py.

(* ------------------------------------------------------------------------- *)
(** ** The bacpypes data the code handles *)

Module Bacpypes.
Import Py.

(** The primitive classes of [bacpypes.primitivedata] (all subclasses of
    [Atomic]). *)
Inductive Primitive : Type :=
| Null | Boolean | Unsigned | Integer | Real | Double | OctetString
| CharacterString | BitString | Enumerated | Date | Time | ObjectIdentifier.

(** A datatype as [get_datatype] returns it: a class object.  [Atomic base None]
    is the primitive class itself, [Atomic base (Some n)] a named subclass of it
    (an enumeration such as EngineeringUnits); [ArrayOf] is a subclass of
    [Array] with its [subtype]; [Constructed] is any other class. *)
Inductive Datatype : Type :=
| Atomic (base : Primitive) (subclass : option string)
| ArrayOf (subtype : Datatype)
| Constructed (name : string).

Definition primitive_eqb (a b : Primitive) : bool :=
  match a, b with
  | Null, Null | Boolean, Boolean | Unsigned, Unsigned | Integer, Integer
  | Real, Real | Double, Double | OctetString, OctetString
  | CharacterString, CharacterString | BitString, BitString
  | Enumerated, Enumerated | Date, Date | Time, Time
  | ObjectIdentifier, ObjectIdentifier => true
  | _, _ => false
  end.

(** [issubclass(datatype, Atomic)] *)
Definition issubclass_Atomic (d : Datatype) : bool :=
  match d with
  | Atomic _ _ => true
  | _ => false
  end.

(** [issubclass(datatype, Array)] *)
Definition issubclass_Array (d : Datatype) : bool :=
  match d with
  | ArrayOf _ => true
  | _ => false
  end.

(** [datatype is P] for a primitive class [P]: identity, so a subclass of [P]
    does not qualify. *)
Definition is_class (d : Datatype) (p : Primitive) : bool :=
  match d with
  | Atomic base None => primitive_eqb base p
  | _ => false
  end.

(** An object type or a property identifier: a name, or a number once the
    code has replaced an all-digit token by [int(token)]. *)
Inductive Ident : Type :=
| Name (s : string)
| Num (z : Z).

Definition ObjId : Type := (Ident * Z)%type.
Definition Addr : Type := string.

(** A value of an enumeration as a decoded PDU holds it: the name when the
    code is known, the number otherwise. *)
Definition EnumVal : Type := Ident.

(** Truthiness of an optional enumeration value. *)
Definition truthy (v : option EnumVal) : bool :=
  match v with
  | None => false
  | Some (Name s) => negb (String.eqb s "")
  | Some (Num z) => negb (z =? 0)
  end.

(** ['%s' % v] *)
Definition percent_s (v : option EnumVal) : string :=
  match v with
  | None => "None"
  | Some (Name s) => s
  | Some (Num z) => str_of_int z
  end.

(** The [Any] a device returns: an object that answers [cast_out(klass)]. *)
Record Any : Type := { cast_out : Datatype -> Res Val }.

Record ErrorType : Type := { et_errorClass : EnumVal; et_errorCode : EnumVal }.

(** [ReadResult] is a choice: a value or an access error. *)
Inductive ReadResult : Type :=
| ResultValue (propertyValue : Any)
| ResultError (propertyAccessError : ErrorType).

Record ReadAccessResultElement : Type := {
  el_propertyIdentifier : Ident;
  el_propertyArrayIndex : option Z;
  el_readResult : ReadResult
}.

Record ReadAccessResult : Type := {
  rar_objectIdentifier : ObjId;
  rar_listOfResults : list ReadAccessResultElement
}.

(** What an IOCB can hold as [ioResponse]. *)
Inductive APDU : Type :=
| ReadPropertyACK (objectIdentifier : ObjId) (propertyIdentifier : Ident)
                  (propertyArrayIndex : option Z) (value : Any)
| ReadPropertyMultipleACK (listOfReadAccessResults : list ReadAccessResult)
| SimpleAckPDU
| OtherPDU (name : string).

(** What an IOCB can hold as [ioError]: reject and abort PDUs carry
    [apduAbortRejectReason]; anything else is looked at through [errorClass]
    and [errorCode]. *)
Inductive ErrPDU : Type :=
| RejectPDU (apduAbortRejectReason : Z)
| AbortPDU (apduAbortRejectReason : Z)
| ErrorPDU (errorClass errorCode : option EnumVal).

Record IOCB : Type := { ioResponse : option APDU; ioError : option ErrPDU }.

(** *** Requests *)

Record ReadPropertyRequest : Type := {
  rp_objectIdentifier : ObjId;
  rp_propertyIdentifier : Ident;
  rp_propertyArrayIndex : option Z;
  rp_pduDestination : Addr
}.

Record PropertyReference : Type := {
  pr_propertyIdentifier : string;
  pr_propertyArrayIndex : option Z
}.

Record ReadAccessSpecification : Type := {
  ras_objectIdentifier : ObjId;
  ras_listOfPropertyReferences : list PropertyReference
}.

Record ReadPropertyMultipleRequest : Type := {
  rpm_listOfReadAccessSpecs : list ReadAccessSpecification;
  rpm_pduDestination : Addr
}.

(** The value [build_wp_request] hands to [Any.cast_in]: [Null()], an instance
    [cls(arg)] of a bacpypes class, or the command token left as it came. *)
Inductive WValue : Type :=
| WNull
| WObj (cls : Datatype) (arg : Val)
| WToken (tok : string).

Record WritePropertyRequest : Type := {
  wp_objectIdentifier : ObjId;
  wp_propertyIdentifier : Ident;
  wp_pduDestination : Addr;
  wp_propertyValue : WValue;
  wp_propertyArrayIndex : option Z;
  wp_priority : option Z
}.

Inductive Request : Type :=
| RP (r : ReadPropertyRequest)
| RPM (r : ReadPropertyMultipleRequest)
| WP (r : WritePropertyRequest).

(** The library and interpreter functions the code calls. *)
Record Env : Type := {
  (** truthiness of [get_object_class(name)] *)
  get_object_class : string -> bool;
  (** [get_datatype(obj_type, prop_id, vendor_id=...)]; [None] is Python's *)
  get_datatype : Ident -> Ident -> Z -> option Datatype;
  (** the [enumerations] dictionaries, in iteration order *)
  PropertyIdentifier_enumerations : list (string * Z);
  RejectReason_enumerations : list (string * Z);
  AbortReason_enumerations : list (string * Z);
  (** [Address(addr)] *)
  Address : string -> Res Addr;
  (** [float(token)], as a binary64 bit pattern *)
  float : string -> Res Z;
  (** the exception, if any, with which the constructor [cls(arg)] refuses
      its argument *)
  constructor_refuses : Datatype -> Val -> option Exc;
  (** the exception, if any, that [Any.cast_in(value)] raises *)
  cast_in_refuses : WValue -> option Exc
}.

(** The BACnet stack seen from the caller: a request goes out, the call blocks
    in [iocb.wait()], and the IOCB comes back completed.  [D] is whatever
    state the device and the stack keep between requests. *)
Record Gateway (D : Type) : Type := {
  request_io : Request -> D -> IOCB * D
}.
Arguments request_io {D} g r d.

End Bacpypes.

(* ------------------------------------------------------------------------- *)
(** ** The application object: state, logging, the blocking request *)

Module App.
Import Py Bacpypes.

(** The reason [find_reason] returns: a name, or the raw code when no name
    matches. *)
Inductive Reason : Type :=
| ReasonName (s : string)
| ReasonCode (z : Z).

Inductive Level : Type := DEBUG | WARNING | ERROR.

(** Arguments of a log call, kept as objects rather than rendered. *)
Inductive LogArg : Type :=
| AStr (s : string)
| ATokens (l : list string)
| AIndex (i : option Z)
| AIdent (i : Ident)
| AObjId (o : ObjId)
| ADatatype (d : option Datatype)
| AVal (v : Val)
| AWValue (v : WValue)
| AApdu (a : APDU)
| AErrPDU (a : ErrPDU)
| AAccessError (e : ErrorType)
| AReason (r : Reason)
| ARequest (r : Request).

Record LogEntry : Type := { level : Level; fmt : string; fmt_args : list LogArg }.

(** What a call can read and change: the [_started] flag, the device behind
    the stack, the requests handed to the stack so far (oldest first) and the
    log (oldest first). *)
Record World (D : Type) : Type := {
  _started : bool;
  device : D;
  sent : list Request;
  log : list LogEntry
}.
Arguments _started {D} w.
Arguments device {D} w.
Arguments sent {D} w.
Arguments log {D} w.

(** A method body: it reads and updates the world and returns or raises. *)
Definition M (D A : Type) : Type := World D -> Res A * World D.

Definition ret {D A} (a : A) : M D A := fun w => (Return a, w).
Definition raise {D A} (e : Exc) : M D A := fun w => (Raise e, w).
Definition bind {D A B} (m : M D A) (k : A -> M D B) : M D B :=
  fun w =>
    match m w with
    | (Return a, w') => k a w'
    | (Raise e, w') => (Raise e, w')
    end.
Definition lift {D A} (r : Res A) : M D A := fun w => (r, w).

Declare Scope app_scope.
Delimit Scope app_scope with app.
Notation "x <- m ;; k" := (bind m (fun x => k))
  (at level 61, m at next level, right associativity) : app_scope.
Notation "m ;; k" := (bind m (fun _ => k))
  (at level 61, right associativity) : app_scope.
Local Open Scope app_scope.

Definition started {D} : M D bool := fun w => (Return (_started w), w).

Definition log_call {D} (lvl : Level) (f : string) (a : list LogArg) : M D unit :=
  fun w =>
    (Return tt,
     {| _started := _started w; device := device w; sent := sent w;
        log := log w ++ [ {| level := lvl; fmt := f; fmt_args := a |} ] |}).

Definition log_debug {D} := @log_call D DEBUG.
Definition log_warning {D} := @log_call D WARNING.
Definition log_error {D} := @log_call D ERROR.

(** [deferred(self.this_application.request_io, iocb)]: the request is handed
    to the stack. *)
Definition deferred_request_io {D} (r : Request) : M D unit :=
  fun w =>
    (Return tt,
     {| _started := _started w; device := device w; sent := sent w ++ [r];
        log := log w |}).

(** [iocb.wait()]: blocks until the stack has completed the IOCB. *)
Definition wait {D} (g : Gateway D) (r : Request) : M D IOCB :=
  fun w =>
    let (iocb, d') := request_io g r (device w) in
    (Return iocb,
     {| _started := _started w; device := d'; sent := sent w; log := log w |}).

End App.

(* ------------------------------------------------------------------------- *)
(** ** Read.py *)

Module Read.
Import Py Bacpypes App.
Local Open Scope app_scope.

Section ReadProperty.

Variable D : Type.
Variable env : Env.
Variable gw : Gateway D.

(** *** [find_reason] *)

(** [[k for k, v in reasons.items() if v == code][0]], and [code] itself on
    [IndexError]. *)
Definition reason_of_code (reasons : list (string * Z)) (code : Z) : Reason :=
  match filter (fun kv => snd kv =? code) reasons with
  | (k, _) :: _ => ReasonName k
  | [] => ReasonCode code
  end.

(** The last branch calls [self.log_warning] in a module-level function, where
    no [self] is bound: the interpreter raises [NameError] before the
    [return 'UnKnown Error...'] below it is reached. *)
Definition find_reason (apdu : ErrPDU) : Res Reason :=
  match apdu with
  | RejectPDU code => Return (reason_of_code (RejectReason_enumerations env) code)
  | AbortPDU code => Return (reason_of_code (AbortReason_enumerations env) code)
  | ErrorPDU errorClass errorCode =>
      if truthy errorCode && truthy errorClass
      then Return (ReasonName (percent_s errorCode))
      else Raise (NameError "self")
  end.

(** [reason == name] *)
Definition reason_is (reason : Reason) (name : string) : bool :=
  match reason with
  | ReasonName s => String.eqb s name
  | ReasonCode _ => false
  end.

(** ["%s" % reason] *)
Definition reason_str (reason : Reason) : string :=
  match reason with
  | ReasonName s => s
  | ReasonCode z => str_of_int z
  end.

(** *** [build_rp_request] *)

(** The object-type token: [int(token)] when all digits, else a name that
    [get_object_class] must know. *)
Definition rp_obj_type (tok : string) : Res Ident :=
  if isdigit tok then res_bind (int tok) (fun z => Return (Num z))
  else if negb (get_object_class env tok)
       then Raise (ValueError "unknown object type")
       else Return (Name tok).

Definition prop_ident (tok : string) : Res Ident :=
  if isdigit tok then res_bind (int tok) (fun z => Return (Num z))
  else Return (Name tok).

(** The request as the body builds it, up to the last assignment to
    [request.propertyArrayIndex]. *)
Definition rp_request (args : list string) (arr_index : option Z)
           (vendor_id : Z) : Res ReadPropertyRequest :=
  match args with
  | addr :: obj_type :: obj_inst :: prop_id :: _ =>
      res_bind (rp_obj_type obj_type) (fun obj_type =>
      res_bind (int obj_inst) (fun obj_inst =>
      res_bind (prop_ident prop_id) (fun prop_id =>
      match get_datatype env obj_type prop_id vendor_id with
      | None => Raise (ValueError "invalid property for object type")
      | Some _ =>
          res_bind (Address env addr) (fun pduDestination =>
          res_bind
            (if Nat.eqb (List.length args) 5
             then res_bind (int (List.nth 4%nat args "")) (fun i => Return (Some i))
             else Return arr_index)
            (fun propertyArrayIndex =>
          Return {| rp_objectIdentifier := (obj_type, obj_inst);
                    rp_propertyIdentifier := prop_id;
                    rp_propertyArrayIndex := propertyArrayIndex;
                    rp_pduDestination := pduDestination |}))
      end)))
  | _ => Raise (ValueError "not enough values to unpack (expected 4)")
  end.

Definition build_rp_request (args : list string) (arr_index : option Z)
           (vendor_id : Z) : M D ReadPropertyRequest :=
  request <- lift (rp_request args arr_index vendor_id) ;;
  log_debug "- request: %r" [ARequest (RP request)] ;;
  ret request.

(** *** Decoding a returned value

    The same statement stands in [read] and in [readMultiple]: an array
    datatype with an array index decodes index 0 as [Unsigned] and any other
    index as the array's [subtype]; everything else goes to [cast_out] with
    the datatype itself. *)
Definition cast_out_value (datatype : Datatype) (propertyArrayIndex : option Z)
           (value : Any) : Res Val :=
  match datatype, propertyArrayIndex with
  | ArrayOf subtype, Some i =>
      if i =? 0 then cast_out value (Atomic Unsigned None)
      else cast_out value subtype
  | _, _ => cast_out value datatype
  end.

(** *** [_split_the_read_request]

    [rd] is [self.read], called with [vendor_id] and [bacoid] left at their
    defaults. *)
Fixpoint read_elements (rd : string -> option Z -> Z -> M D Val)
         (args : string) (i : Z) (n : nat) (objlist : list Val)
  : M D (list Val) :=
  match n with
  | O => ret objlist
  | S n' =>
      v <- rd args (Some i) 0 ;;
      read_elements rd args (i + 1) n' (objlist ++ [v])
  end.

Definition split_with (rd : string -> option Z -> Z -> M D Val)
           (args : string) (arr_index : option Z) : M D Val :=
  let objlist := [] in
  nmbr_obj <- rd args (Some 0) 0 ;;
  stop <- lift (range_stop nmbr_obj) ;;
  objlist <- read_elements rd args 1 (Z.to_nat (stop - 1)) objlist ;;
  ret (VList objlist).

(** *** [read]

    [read] and [_split_the_read_request] call each other.  [depth] is the
    number of nested [read] frames the interpreter still allows; at zero it
    raises [RecursionError].

    [build_rp_request] raises [ValueError], never [ReadPropertyException], so
    the [except] clause catches nothing and the exception leaves [read]. *)

(** The second half of the body, from [if iocb.ioResponse:] on; [rd] is
    [self.read] as [_split_the_read_request] calls it. *)
Definition read_response (rd : string -> option Z -> Z -> M D Val)
           (args : string) (arr_index : option Z) (vendor_id : Z)
           (iocb : IOCB) : M D Val :=
  let args_split := split args in
  match ioResponse iocb with
  | Some apdu =>
      match apdu with
      | ReadPropertyACK objectIdentifier propertyIdentifier
                        propertyArrayIndex propertyValue =>
          let datatype :=
            get_datatype env (fst objectIdentifier) propertyIdentifier
                         vendor_id in
          log_debug "    - datatype: %r" [ADatatype datatype] ;;
          match datatype with
          | None => raise (TypeError "unknown datatype")
          | Some datatype =>
              value <- lift (cast_out_value datatype propertyArrayIndex
                                            propertyValue) ;;
              log_debug "    - value: %r" [AVal value] ;;
              ret value
          end
      | _ =>
          log_debug "    - not an ack" [] ;;
          log_warning "APDU : %s / %s" [AApdu apdu] ;;
          ret VNone
      end
  | None =>
      match ioError iocb with
      | Some apdu =>
          reason <- lift (find_reason apdu) ;;
          if reason_is reason "segmentationNotSupported" then
            log_debug
              "Segmentation not supported... will read properties one by one..."
              [] ;;
            log_debug "The Request was : %s" [ATokens args_split] ;;
            split_with rd args arr_index
          else
            (if reason_is reason "unknownProperty"
             then log_warning "Unknown property %s" [AStr args]
             else ret tt) ;;
            raise (NoResponseFromController
                     ("APDU Abort Reason : " ++ reason_str reason))
      | None => ret VNone
      end
  end.

Fixpoint read (depth : nat) (args : string) (arr_index : option Z)
         (vendor_id : Z) : M D Val :=
  match depth with
  | O => raise RecursionError
  | S depth' =>
      is_started <- started ;;
      if negb is_started
      then raise (ApplicationNotStarted "BACnet stack not running - use startApp()")
      else
        let args_split := split args in
        log_debug "do_read %r" [ATokens args_split] ;;
        request <- build_rp_request args_split arr_index vendor_id ;;
        deferred_request_io (RP request) ;;
        log_debug "    - iocb: %r" [ARequest (RP request)] ;;
        iocb <- wait gw (RP request) ;;
        read_response (read depth') args arr_index vendor_id iocb
  end.

Definition _split_the_read_request (depth : nat) (args : string)
           (arr_index : option Z) : M D Val :=
  split_with (read depth) args arr_index.

(** *** [build_rpm_request] *)

(** [key in enumerations] *)
Definition in_enumerations (key : string) (enumerations : list (string * Z))
  : bool :=
  existsb (fun kv => String.eqb (fst kv) key) enumerations.

Definition is_wildcard (prop_id : string) : bool :=
  String.eqb prop_id "all" || String.eqb prop_id "required"
  || String.eqb prop_id "optional".

(** The inner [while]: [toks] are the tokens from [args[i]] on.  It returns
    the property references read and the tokens left at [break] or at the end
    of the command. *)
Fixpoint prop_reference_loop (obj_type : Ident) (toks : list string)
         (prop_reference_list : list PropertyReference)
  : Res (list PropertyReference * list string) :=
  match toks with
  | [] => Return (prop_reference_list, [])
  | prop_id :: rest =>
      if negb (in_enumerations prop_id (PropertyIdentifier_enumerations env))
      then Return (prop_reference_list, toks)
      else
        res_bind
          (if is_wildcard prop_id then Return tt
           else match get_datatype env obj_type (Name prop_id) 0 with
                | Some _ => Return tt
                | None =>
                    Raise (ValueError "invalid property for object type : %s | %s")
                end)
          (fun _ =>
             match rest with
             | tok :: rest' =>
                 if isdigit tok then
                   res_bind (int tok) (fun i =>
                     prop_reference_loop obj_type rest'
                       (prop_reference_list ++
                          [ {| pr_propertyIdentifier := prop_id;
                               pr_propertyArrayIndex := Some i |} ]))
                 else
                   prop_reference_loop obj_type rest
                     (prop_reference_list ++
                        [ {| pr_propertyIdentifier := prop_id;
                             pr_propertyArrayIndex := None |} ])
             | [] =>
                 prop_reference_loop obj_type rest
                   (prop_reference_list ++
                      [ {| pr_propertyIdentifier := prop_id;
                           pr_propertyArrayIndex := None |} ])
             end)
  end.

(** The outer [while].  Every turn consumes at least two tokens, so [fuel]
    equal to the number of tokens is never used up ([None] would say it
    was). *)
Fixpoint read_access_spec_loop (fuel : nat) (toks : list string)
         (read_access_spec_list : list ReadAccessSpecification)
  : option (Res (list ReadAccessSpecification)) :=
  match toks with
  | [] => Some (Return read_access_spec_list)
  | obj_type :: rest =>
      match fuel with
      | O => None
      | S fuel' =>
          match rp_obj_type obj_type with
          | Raise e => Some (Raise e)
          | Return obj_type =>
              match rest with
              | [] => Some (Raise (IndexError "list index out of range"))
              | obj_inst :: rest' =>
                  match int obj_inst with
                  | Raise e => Some (Raise e)
                  | Return obj_inst =>
                      match prop_reference_loop obj_type rest' [] with
                      | Raise e => Some (Raise e)
                      | Return ([], _) =>
                          Some (Raise (ValueError "provide at least one property"))
                      | Return (prop_reference_list, remaining) =>
                          read_access_spec_loop fuel' remaining
                            (read_access_spec_list ++
                               [ {| ras_objectIdentifier := (obj_type, obj_inst);
                                    ras_listOfPropertyReferences :=
                                      prop_reference_list |} ])
                      end
                  end
              end
          end
      end
  end.

Definition rpm_request (args : list string) : Res ReadPropertyMultipleRequest :=
  match args with
  | [] => Raise (IndexError "list index out of range")
  | addr :: rest =>
      match read_access_spec_loop (List.length rest) rest [] with
      | None => Raise (RuntimeError "token loop did not end")
      | Some (Raise e) => Raise e
      | Some (Return []) =>
          Raise (RuntimeError "at least one read access specification required")
      | Some (Return read_access_spec_list) =>
          res_bind (Address env addr) (fun pduDestination =>
          Return {| rpm_listOfReadAccessSpecs := read_access_spec_list;
                    rpm_pduDestination := pduDestination |})
      end
  end.

Definition build_rpm_request (args : list string)
  : M D ReadPropertyMultipleRequest :=
  request <- lift (rpm_request args) ;;
  log_debug "    - request: %r" [ARequest (RPM request)] ;;
  ret request.

(** *** [readMultiple] *)

(** How a loop body left: it fell through with [values] as they stand, or it
    executed [return]. *)
Inductive Flow : Type :=
| Fallthrough (values : list Val)
| Returned (v : Val).

(** The inner [for] over [result.listOfResults]. *)
Fixpoint listOfResults_loop (objectIdentifier : ObjId)
         (elements : list ReadAccessResultElement) (values : list Val)
  : M D Flow :=
  match elements with
  | [] => ret (Fallthrough values)
  | element :: rest =>
      let propertyIdentifier := el_propertyIdentifier element in
      log_debug "- propertyIdentifier: %r" [AIdent propertyIdentifier] ;;
      let propertyArrayIndex := el_propertyArrayIndex element in
      log_debug "- propertyArrayIndex: %r" [AIndex propertyArrayIndex] ;;
      (match propertyArrayIndex with
       | Some i => log_error ("[" ++ str_of_int i ++ "]") []
       | None => ret tt
       end) ;;
      match el_readResult element with
      | ResultError propertyAccessError =>
          log_error " ! " [AAccessError propertyAccessError] ;;
          listOfResults_loop objectIdentifier rest values
      | ResultValue propertyValue =>
          let datatype :=
            get_datatype env (fst objectIdentifier) propertyIdentifier 0 in
          log_debug "- datatype: %r" [ADatatype datatype] ;;
          match datatype with
          | None => raise (TypeError "unknown datatype")
          | Some datatype =>
              value <- lift (cast_out_value datatype propertyArrayIndex
                                            propertyValue) ;;
              log_debug "- value: %r" [AVal value] ;;
              let values := (values ++ [value])%list in
              ret (Returned (VList values))
          end
      end
  end.

(** The outer [for] over [apdu.listOfReadAccessResults]. *)
Fixpoint listOfReadAccessResults_loop (results : list ReadAccessResult)
         (values : list Val) : M D Flow :=
  match results with
  | [] => ret (Fallthrough values)
  | result :: rest =>
      let objectIdentifier := rar_objectIdentifier result in
      log_debug "- objectIdentifier: %r" [AObjId objectIdentifier] ;;
      flow <- listOfResults_loop objectIdentifier (rar_listOfResults result)
                                 values ;;
      match flow with
      | Returned v => ret (Returned v)
      | Fallthrough values => listOfReadAccessResults_loop rest values
      end
  end.

(** The second half of the body, from [if iocb.ioResponse:] on.  A success
    branch that neither returns nor raises falls through to
    [if iocb.ioError:]. *)
Definition readMultiple_response (args : list string) (values : list Val)
           (iocb : IOCB) : M D Val :=
  flow <-
    match ioResponse iocb with
    | Some apdu =>
        match apdu with
        | ReadPropertyMultipleACK listOfReadAccessResults =>
            listOfReadAccessResults_loop listOfReadAccessResults values
        | _ =>
            log_warning "- not an ack" [] ;;
            log_warning "APDU : %s / %s" [AApdu apdu] ;;
            ret (Returned VNone)
        end
    | None => ret (Fallthrough values)
    end ;;
  match flow with
  | Returned v => ret v
  | Fallthrough values =>
      match ioError iocb with
      | Some apdu =>
          reason <- lift (find_reason apdu) ;;
          log_debug "APDU Abort Reject Reason : %s" [AReason reason] ;;
          log_debug "The Request was : %s" [ATokens args] ;;
          if reason_is reason "unrecognizedService" then
            raise UnrecognizedService
          else if reason_is reason "segmentationNotSupported" then
            raise SegmentationNotSupported
          else if reason_is reason "unknownProperty" then
            log_warning "Unknown property %s" [ATokens args] ;;
            ret (VList (values ++ [VStr ""]))
          else
            log_warning "No response from controller" [] ;;
            ret (VList (values ++ [VStr ""]))
      | None => ret VNone
      end
  end.

Definition readMultiple (args : string) : M D Val :=
  is_started <- started ;;
  if negb is_started
  then raise (ApplicationNotStarted "BACnet stack not running - use startApp()")
  else
    let args := split args in
    let values := [] in
    log_debug "readMultiple %r" [ATokens args] ;;
    request <- build_rpm_request args ;;
    deferred_request_io (RPM request) ;;
    iocb <- wait gw (RPM request) ;;
    readMultiple_response args values iocb.

End ReadProperty.

Arguments build_rp_request {D} env args arr_index vendor_id.
Arguments build_rpm_request {D} env args.
Arguments read_elements {D} rd args i n objlist.
Arguments split_with {D} rd args arr_index.
Arguments read_response {D} env rd args arr_index vendor_id iocb.
Arguments read {D} env gw depth args arr_index vendor_id.
Arguments _split_the_read_request {D} env gw depth args arr_index.
Arguments listOfResults_loop {D} env objectIdentifier elements values.
Arguments listOfReadAccessResults_loop {D} env results values.
Arguments readMultiple_response {D} env args values iocb.
Arguments readMultiple {D} env gw args.

End Read.

(* ------------------------------------------------------------------------- *)
(** ** Write.py *)

Module Write.
Import Py Bacpypes App.
Local Open Scope app_scope.

Section WriteProperty.

Variable D : Type.
Variable env : Env.
Variable gw : Gateway D.

(** [cls(arg)]: the library's constructor accepts the argument or raises. *)
Definition construct (cls : Datatype) (arg : Val) : Res WValue :=
  match constructor_refuses env cls arg with
  | Some e => Raise e
  | None => Return (WObj cls arg)
  end.

(** [isinstance(value, cls)] where [value] is still the command token, a
    [str]: no bacpypes class is a base class of [str]. *)
Definition isinstance_str (cls : Datatype) : bool := false.

Definition wp_ident (tok : string) : Res Ident :=
  if isdigit tok then res_bind (int tok) (fun z => Return (Num z))
  else Return (Name tok).

(** "change atomic values into something encodeable, null is a special case":
    the [if]/[elif] chain over the value token. *)
Definition encodeable_value (datatype : option Datatype) (value : string)
           (indx : option Z) : Res WValue :=
  if String.eqb value "null" then Return WNull
  else
    match datatype with
    | None => Raise (TypeError "issubclass() arg 1 must be a class")
    | Some datatype =>
        match datatype with
        | Atomic _ _ =>
            res_bind
              (if is_class datatype Integer then
                 res_bind (int value) (fun z => Return (VInt z))
               else if is_class datatype Real then
                 res_bind (float env value) (fun f => Return (VFloat f))
               else if is_class datatype Unsigned then
                 res_bind (int value) (fun z => Return (VInt z))
               else Return (VStr value))
              (fun value => construct datatype value)
        | ArrayOf subtype =>
            match indx with
            | Some indx =>
                if indx =? 0 then construct (Atomic Integer None) (VStr value)
                else if issubclass_Atomic subtype then
                  construct subtype (VStr value)
                else if negb (isinstance_str subtype) then
                  Raise (TypeError "invalid result datatype, expecting %s")
                else Return (WToken value)
            | None =>
                if negb (isinstance_str datatype) then
                  Raise (TypeError "invalid result datatype, expecting %s")
                else Return (WToken value)
            end
        | Constructed _ =>
            if negb (isinstance_str datatype) then
              Raise (TypeError "invalid result datatype, expecting %s")
            else Return (WToken value)
        end
    end.

Definition build_wp_request (args : list string) (vendor_id : Z)
  : M D WritePropertyRequest :=
  match args with
  | addr :: obj_type :: obj_inst :: prop_id :: rest =>
      obj_type <- lift (wp_ident obj_type) ;;
      obj_inst <- lift (int obj_inst) ;;
      value <- lift (match rest with
                     | value :: _ => Return value
                     | [] => Raise (IndexError "list index out of range")
                     end) ;;
      indx <-
        (if Nat.leb 6 (List.length args) then
           let tok := List.nth 5%nat args "" in
           if negb (String.eqb tok "-")
           then i <- lift (int tok) ;; ret (Some i)
           else ret None
         else ret None) ;;
      log_debug "    - indx: %r" [AIndex indx] ;;
      priority <-
        (if Nat.leb 7 (List.length args)
         then p <- lift (int (List.nth 6%nat args "")) ;; ret (Some p)
         else ret None) ;;
      log_debug "    - priority: %r" [AIndex priority] ;;
      prop_id <- lift (wp_ident prop_id) ;;
      let datatype := get_datatype env obj_type prop_id vendor_id in
      log_debug "    - datatype: %r" [ADatatype datatype] ;;
      value <- lift (encodeable_value datatype value indx) ;;
      log_debug "    - encodeable value: %r %s" [AWValue value] ;;
      pduDestination <- lift (Address env addr) ;;
      match cast_in_refuses env value with
      | Some e => raise e
      | None =>
          let request :=
            {| wp_objectIdentifier := (obj_type, obj_inst);
               wp_propertyIdentifier := prop_id;
               wp_pduDestination := pduDestination;
               wp_propertyValue := value;
               wp_propertyArrayIndex := indx;
               wp_priority := priority |} in
          log_debug "    - request: %r" [ARequest (WP request)] ;;
          ret request
      end
  | _ => raise (ValueError "not enough values to unpack (expected 4)")
  end.

Definition write (args : string) (vendor_id : Z) : M D Val :=
  is_started <- started ;;
  if negb is_started
  then raise (ApplicationNotStarted "BACnet stack not running - use startApp()")
  else
    let args := split args in
    log_debug "do_write %r" [ATokens args] ;;
    request <- build_wp_request args vendor_id ;;
    deferred_request_io (WP request) ;;
    iocb <- wait gw (WP request) ;;
    flow <-
      match ioResponse iocb with
      | Some SimpleAckPDU => ret false
      | Some _ => log_warning "- not an ack. Write has failed." [] ;; ret true
      | None => ret false
      end ;;
    if (flow : bool) then ret VNone
    else
      match ioError iocb with
      | Some _ => raise (NoResponseFromController "")
      | None => ret VNone
      end.

End WriteProperty.

Arguments build_wp_request {D} env args vendor_id.
Arguments write {D} env gw args vendor_id.

End Write.

(* ------------------------------------------------------------------------- *)
(** ** Writing a value and reading it back *)

Module Codec.
Import Py Bacpypes.



End Codec.

(* ------------------------------------------------------------------------- *)
(** ** A concrete installation

    A slice of the bacpypes tables and a few simulated devices, used to run
    the definitions above on concrete commands. *)

Module Sample.
Import Py Bacpypes App.

Definition RejectReason : list (string * Z) :=
  [ ("other", 0); ("bufferOverflow", 1); ("inconsistentParameters", 2);
    ("invalidParameterDatatype", 3); ("invalidTag", 4);
    ("missingRequiredParameter", 5); ("parameterOutOfRange", 6);
    ("tooManyArguments", 7); ("undefinedEnumeration", 8);
    ("unrecognizedService", 9) ].

Definition AbortReason : list (string * Z) :=
  [ ("other", 0); ("bufferOverflow", 1); ("invalidApduInThisState", 2);
    ("preemptedByHigherPriorityTask", 3); ("segmentationNotSupported", 4);
    ("securityError", 5); ("insufficientSecurity", 6);
    ("windowSizeOutOfRange", 7); ("applicationExceededReplyTime", 8);
    ("outOfResources", 9); ("tsmTimeout", 10); ("apduTooLong", 11);
    ("serverTimeout", 64); ("noResponse", 65) ].

Definition PropertyIdentifier : list (string * Z) :=
  [ ("all", 8); ("description", 28); ("objectList", 76); ("objectName", 77);
    ("optional", 80); ("presentValue", 85); ("priorityArray", 87);
    ("required", 105); ("units", 117) ].

Definition object_classes : list string :=
  [ "analogInput"; "analogValue"; "device" ].

Definition properties : list (string * string * Datatype) :=
  [ ("analogInput", "presentValue", Atomic Real None);
    ("analogInput", "units", Atomic Enumerated (Some "EngineeringUnits"));
    ("analogInput", "objectName", Atomic CharacterString None);
    ("analogInput", "description", Atomic CharacterString None);
    ("analogValue", "presentValue", Atomic Real None);
    ("analogValue", "priorityArray", ArrayOf (Constructed "PriorityValue"));
    ("device", "objectName", Atomic CharacterString None);
    ("device", "objectList", ArrayOf (Atomic ObjectIdentifier None)) ].

Fixpoint lookup (obj_type prop_id : string)
         (table : list (string * string * Datatype)) : option Datatype :=
  match table with
  | [] => None
  | (o, p, d) :: rest =>
      if String.eqb o obj_type && String.eqb p prop_id then Some d
      else lookup obj_type prop_id rest
  end.

(** A proprietary object type, number 300, that vendor 999 has registered
    with two properties of its own: number 1000, a [Null], and number 1001,
    an array of character strings.  (vendor, object type, property, class) *)
Definition proprietary : list (Z * Z * Z * Datatype) :=
  [ (999, 300, 1000, Atomic Null None);
    (999, 300, 1001, ArrayOf (Atomic CharacterString None)) ].

Fixpoint lookup_proprietary (vendor_id obj_type prop_id : Z)
         (table : list (Z * Z * Z * Datatype)) : option Datatype :=
  match table with
  | [] => None
  | (v, o, p, d) :: rest =>
      if (v =? vendor_id) && (o =? obj_type) && (p =? prop_id) then Some d
      else lookup_proprietary vendor_id obj_type prop_id rest
  end.

(** The registry knows the standard objects by name, whatever the vendor, and
    a proprietary object by its numbers under the vendor that registered it. *)
Definition registry (obj_type prop_id : Ident) (vendor_id : Z)
  : option Datatype :=
  match obj_type, prop_id with
  | Name o, Name p => lookup o p properties
  | Num o, Num p => lookup_proprietary vendor_id o p proprietary
  | _, _ => None
  end.

(** [float] on the two literals the commands below use. *)
Definition float_literal (s : string) : Res Z :=
  if String.eqb s "72.5" then Return 4634802150889750528
  else if String.eqb s "21.0" then Return 4626604192193052672
  else Raise (ValueError "could not convert string to float").

(** The names each enumerated class lists. *)
Definition enumerations : list (string * list string) :=
  [ ("EngineeringUnits",
     [ "degreesCelsius"; "degreesFahrenheit"; "percent"; "noUnits" ]) ].

Definition enumeration_lists (cls : option string) (name : string) : bool :=
  match cls with
  | Some cls =>
      existsb (fun entry => String.eqb (fst entry) cls
                            && existsb (String.eqb name) (snd entry))
              enumerations
  | None => false
  end.

(** What the constructors of the primitive classes refuse: [Null] and the
    number classes refuse a [str] (TypeError); [Unsigned] and the enumerated
    classes refuse a negative integer, and an enumerated class refuses a name
    it does not list (ValueError).  Nothing is said here about the remaining
    classes (booleans, octet and bit strings, dates, times, object
    identifiers): for them the sample lets the argument through, and no
    statement below builds on that. *)
Definition refuses (cls : Datatype) (arg : Val) : option Exc :=
  match cls, arg with
  | Atomic (Null | Unsigned | Integer | Real | Double) _, VStr _ =>
      Some (TypeError "invalid constructor datatype")
  | Atomic (Unsigned | Enumerated) _, VInt z =>
      if z <? 0 then Some (ValueError "unsigned integer required") else None
  | Atomic Enumerated cls, VStr name =>
      if enumeration_lists cls name then None
      else Some (ValueError "undefined enumeration")
  | _, _ => None
  end.

Definition env : Env :=
  {| get_object_class := fun name => existsb (String.eqb name) object_classes;
     get_datatype := registry;
     PropertyIdentifier_enumerations := PropertyIdentifier;
     RejectReason_enumerations := RejectReason;
     AbortReason_enumerations := AbortReason;
     Address := fun addr => Return addr;
     float := float_literal;
     constructor_refuses := refuses;
     cast_in_refuses := fun _ => None |}.

(** An application-tagged value: it decodes as its own primitive class (or a
    subclass of it) and as nothing else. *)
Definition tagged (p : Primitive) (v : Val) : Any :=
  {| cast_out := fun klass =>
       match klass with
       | Atomic base _ =>
           if primitive_eqb base p then Return v
           else Raise (LibraryError "InvalidTag")
       | _ => Raise (LibraryError "DecodingError: not an atomic class")
       end |}.

Definition world {D} (d : D) : World D :=
  {| _started := true; device := d; sent := []; log := [] |}.

Definition success (apdu : APDU) : IOCB :=
  {| ioResponse := Some apdu; ioError := None |}.
Definition failure (apdu : ErrPDU) : IOCB :=
  {| ioResponse := None; ioError := Some apdu |}.

(** A device that completes every request the same way. *)
Definition always (iocb : IOCB) : Gateway unit :=
  {| request_io := fun _ d => (iocb, d) |}.

Definition seventy_two_and_a_half : Val := VFloat 4634802150889750528.

Definition access_error : ErrorType :=
  {| et_errorClass := Name "property"; et_errorCode := Name "unknownProperty" |}.

Definition element (prop_id : string) (r : ReadResult) : ReadAccessResultElement :=
  {| el_propertyIdentifier := Name prop_id;
     el_propertyArrayIndex := None;
     el_readResult := r |}.

(** analogInput 1 answers presentValue and units. *)
Definition ai1_value_units : APDU :=
  ReadPropertyMultipleACK
    [ {| rar_objectIdentifier := (Name "analogInput", 1);
         rar_listOfResults :=
           [ element "presentValue" (ResultValue (tagged Real seventy_two_and_a_half));
             element "units" (ResultValue (tagged Enumerated (VStr "degreesCelsius"))) ] |} ].

(** analogInput 1 refuses description and answers presentValue. *)
Definition ai1_error_value : APDU :=
  ReadPropertyMultipleACK
    [ {| rar_objectIdentifier := (Name "analogInput", 1);
         rar_listOfResults :=
           [ element "description" (ResultError access_error);
             element "presentValue" (ResultValue (tagged Real seventy_two_and_a_half)) ] |} ].



Definition unknown_property : ErrPDU :=
  ErrorPDU (Some (Name "property")) (Some (Name "unknownProperty")).

(** The request that [read] builds from "2:5 device 1 objectList". *)
Definition objectList_request : ReadPropertyRequest :=
  {| rp_objectIdentifier := (Name "device", 1);
     rp_propertyIdentifier := Name "objectList";
     rp_propertyArrayIndex := None;
     rp_pduDestination := "2:5" |}.

(** The three entries of device 1's objectList, as they decode. *)
Definition object_list : list Val :=
  [ VTuple [VStr "analogInput"; VInt 1]; VTuple [VStr "analogValue"; VInt 1];
    VTuple [VStr "device"; VInt 1] ].

(** The answer to a read of one array index of objectList: the length at
    index 0, the element at 1..3, an error beyond. *)
Definition element_answer (rp : ReadPropertyRequest) (i : Z) : IOCB :=
  if i =? 0 then
    success (ReadPropertyACK (rp_objectIdentifier rp) (rp_propertyIdentifier rp)
                             (Some 0) (tagged Unsigned (VInt 3)))
  else if 1 <=? i then
    match nth_error object_list (Z.to_nat (i - 1)) with
    | Some v =>
        success (ReadPropertyACK (rp_objectIdentifier rp)
                                 (rp_propertyIdentifier rp) (Some i)
                                 (tagged ObjectIdentifier v))
    | None => failure (ErrorPDU (Some (Name "property"))
                                (Some (Name "invalidArrayIndex")))
    end
  else failure (ErrorPDU (Some (Name "property"))
                         (Some (Name "invalidArrayIndex"))).

(** A device without segmentation: it aborts a read of the whole objectList
    (abort reason 4) and answers a read of one index. *)
Definition unsegmented : Gateway unit :=
  {| request_io := fun r d =>
       match r with
       | RP rp =>
           match rp_propertyArrayIndex rp with
           | None => (failure (AbortPDU 4), d)
           | Some i => (element_answer rp i, d)
           end
       | _ => (failure (RejectPDU 9), d)
       end |}.



(** The same device on a bad day: its state counts the requests served, and
    it also aborts the third one (the first read of element 1) with abort
    reason 4. *)
Definition unsegmented_flaky : Gateway nat :=
  {| request_io := fun r n =>
       match r with
       | RP rp =>
           match rp_propertyArrayIndex rp with
           | None => (failure (AbortPDU 4), S n)
           | Some i =>
               if Nat.eqb n 2 then (failure (AbortPDU 4), S n)
               else (element_answer rp i, S n)
           end
       | _ => (failure (RejectPDU 9), S n)
       end |}.

(** A device without segmentation that answers the read of index 0 with a
    SimpleAck instead of a ReadPropertyACK. *)
Definition unsegmented_simple_ack : Gateway unit :=
  {| request_io := fun r d =>
       match r with
       | RP rp =>
           match rp_propertyArrayIndex rp with
           | None => (failure (AbortPDU 4), d)
           | Some _ => (success SimpleAckPDU, d)
           end
       | _ => (failure (RejectPDU 9), d)
       end |}.

(** device 1 answers a read of presentValue, a property the registry does not
    list for a device. *)
Definition device_presentValue_ack : APDU :=
  ReadPropertyACK (Name "device", 1) (Name "presentValue") None
                  (tagged Real seventy_two_and_a_half).

Definition device_presentValue_rpm_ack : APDU :=
  ReadPropertyMultipleACK
    [ {| rar_objectIdentifier := (Name "device", 1);
         rar_listOfResults :=
           [ element "presentValue"
               (ResultValue (tagged Real seventy_two_and_a_half)) ] |} ].

(** The requests built from "2:5 analogInput 1 presentValue units" and from
    "2:5 analogValue 1 presentValue 72.5". *)
Definition ai1_rpm_request : ReadPropertyMultipleRequest :=
  {| rpm_listOfReadAccessSpecs :=
       [ {| ras_objectIdentifier := (Name "analogInput", 1);
            ras_listOfPropertyReferences :=
              [ {| pr_propertyIdentifier := "presentValue";
                   pr_propertyArrayIndex := None |};
                {| pr_propertyIdentifier := "units";
                   pr_propertyArrayIndex := None |} ] |} ];
     rpm_pduDestination := "2:5" |}.

Definition av1_wp_request : WritePropertyRequest :=
  {| wp_objectIdentifier := (Name "analogValue", 1);
     wp_propertyIdentifier := Name "presentValue";
     wp_pduDestination := "2:5";
     wp_propertyValue := WObj (Atomic Real None) seventy_two_and_a_half;
     wp_propertyArrayIndex := None;
     wp_priority := None |}.

End Sample.

(* ------------------------------------------------------------------------- *)
(** ** Worlds reached by a call, and what a device is assumed to answer *)

Module Props.
Import Py Bacpypes App.

Definition debug (f : string) (a : list LogArg) : LogEntry :=
  {| level := DEBUG; fmt := f; fmt_args := a |}.
Definition warning (f : string) (a : list LogArg) : LogEntry :=
  {| level := WARNING; fmt := f; fmt_args := a |}.
Definition error (f : string) (a : list LogArg) : LogEntry :=
  {| level := ERROR; fmt := f; fmt_args := a |}.

Definition logged {D} (w : World D) (entries : list LogEntry) : World D :=
  {| _started := _started w; device := device w; sent := sent w;
     log := log w ++ entries |}.

(** The world in which [read] wakes up from [iocb.wait()]: its request has
    gone out, the device is in state [d'], three debug lines are written. *)
Definition read_requested {D} (w : World D) (args : string)
           (request : ReadPropertyRequest) (d' : D) : World D :=
  {| _started := _started w; device := d'; sent := sent w ++ [RP request];
     log := log w ++ [ debug "do_read %r" [ATokens (split args)];
                       debug "- request: %r" [ARequest (RP request)];
                       debug "    - iocb: %r" [ARequest (RP request)] ] |}.

(** The same for [readMultiple]. *)
Definition rpm_requested {D} (w : World D) (args : string)
           (request : ReadPropertyMultipleRequest) (d' : D) : World D :=
  {| _started := _started w; device := d'; sent := sent w ++ [RPM request];
     log := log w ++ [ debug "readMultiple %r" [ATokens (split args)];
                       debug "    - request: %r" [ARequest (RPM request)] ] |}.

(** [isinstance(apdu, ReadPropertyACK)] and
    [isinstance(apdu, ReadPropertyMultipleACK)] *)
Definition is_ReadPropertyACK (apdu : APDU) : bool :=
  match apdu with
  | ReadPropertyACK _ _ _ _ => true
  | _ => false
  end.


(** The request [read] sends for array index [i] of the command behind
    [request] when the command itself names no index. *)
Definition at_index (request : ReadPropertyRequest) (i : Z)
  : ReadPropertyRequest :=
  {| rp_objectIdentifier := rp_objectIdentifier request;
     rp_propertyIdentifier := rp_propertyIdentifier request;
     rp_propertyArrayIndex := Some i;
     rp_pduDestination := rp_pduDestination request |}.


(** What the inner loop writes before it looks at the read result. *)
Definition element_header (element : ReadAccessResultElement) : list LogEntry :=
  [ debug "- propertyIdentifier: %r" [AIdent (el_propertyIdentifier element)];
    debug "- propertyArrayIndex: %r" [AIndex (el_propertyArrayIndex element)] ]
  ++ match el_propertyArrayIndex element with
     | Some i => [ error ("[" ++ str_of_int i ++ "]") [] ]
     | None => []
     end.

(** A property reference as [build_rpm_request] lets it through for an object
    type: its name is a key of [PropertyIdentifier.enumerations], and it is
    one of the wildcards or a property whose datatype resolves. *)
Definition accepted_reference (env : Env) (obj_type : Ident)
           (r : PropertyReference) : Prop :=
  Read.in_enumerations (pr_propertyIdentifier r)
                       (PropertyIdentifier_enumerations env) = true
  /\ (Read.is_wildcard (pr_propertyIdentifier r) = true
      \/ get_datatype env obj_type (Name (pr_propertyIdentifier r)) 0 <> None).

Definition well_formed_spec (env : Env) (s : ReadAccessSpecification) : Prop :=
  ras_listOfPropertyReferences s <> []
  /\ Forall (accepted_reference env (fst (ras_objectIdentifier s)))
            (ras_listOfPropertyReferences s).

(** [request] with its array index replaced. *)
Definition with_index (request : ReadPropertyRequest) (i : option Z)
  : ReadPropertyRequest :=
  {| rp_objectIdentifier := rp_objectIdentifier request;
     rp_propertyIdentifier := rp_propertyIdentifier request;
     rp_propertyArrayIndex := i;
     rp_pduDestination := rp_pduDestination request |}.

(** A ReadProperty request for the object, property and address of
    [request], at whatever index. *)
Definition own_request (request : ReadPropertyRequest) (r : Request) : Prop :=
  exists i, r = RP (with_index request i).

(** [w'] differs from [w] at most by requests sent and lines logged, each
    request sent satisfying [P]. *)
Definition extends {D} (P : Request -> Prop) (w w' : World D) : Prop :=
  _started w' = _started w
  /\ (exists l, sent w' = (sent w ++ l)%list /\ Forall P l)
  /\ (exists l, log w' = (log w ++ l)%list).

(** No request at all. *)
Definition nothing : Request -> Prop := fun _ => False.

(** The end of [write]'s body, from [if iocb.ioResponse:] on. *)
Definition write_response {D} (iocb : IOCB) : M D Val :=
  bind
    match ioResponse iocb with
    | Some SimpleAckPDU => ret false
    | Some _ =>
        bind (log_warning "- not an ack. Write has failed." [])
             (fun _ => ret true)
    | None => ret false
    end
    (fun flow : bool =>
       if flow then ret VNone
       else match ioError iocb with
            | Some _ => raise (NoResponseFromController "")
            | None => ret VNone
            end).

(** The world in which [write] wakes up from [iocb.wait()]; [w1] is the world
    in which [build_wp_request] returned. *)
Definition write_requested {D} (w1 : World D) (request : WritePropertyRequest)
           (d' : D) : World D :=
  {| _started := _started w1; device := d';
     sent := sent w1 ++ [WP request]; log := log w1 |}.

(** A computation that, from every world, only sends requests that satisfy
    [P] and only adds to the log. *)
Definition keeps {D A} (P : Request -> Prop) (m : M D A) : Prop :=
  forall w, extends P w (snd (m w)).

(** [request] with another priority. *)
Definition with_priority (request : WritePropertyRequest)
           (priority : option Z) : WritePropertyRequest :=
  {| wp_objectIdentifier := wp_objectIdentifier request;
     wp_propertyIdentifier := wp_propertyIdentifier request;
     wp_pduDestination := wp_pduDestination request;
     wp_propertyValue := wp_propertyValue request;
     wp_propertyArrayIndex := wp_propertyArrayIndex request;
     wp_priority := priority |}.

(** The class whose instance a token other than null is written as, by the
    property's datatype and the array index of the command: the datatype
    itself when it is atomic; for an array, [Integer] at index 0 and the
    element type, when that is atomic, at any other index.  There is none for
    a property without datatype, a constructed datatype, an array named
    without index, and an array of constructed elements at an index other
    than 0. *)
Definition value_class (datatype : option Datatype) (indx : option Z)
  : option Datatype :=
  match datatype with
  | Some (Atomic base subclass) => Some (Atomic base subclass)
  | Some (ArrayOf subtype) =>
      match indx with
      | Some i =>
          if i =? 0 then Some (Atomic Integer None)
          else if issubclass_Atomic subtype then Some subtype
          else None
      | None => None
      end
  | _ => None
  end.


End Props.

(* ------------------------------------------------------------------------- *)
(** ** Properties *)

Import Py Bacpypes App Props.
Local Open Scope app_scope.

Ltac run :=
  unfold bind, ret, raise, lift, started, log_debug, log_warning, log_error,
         log_call, deferred_request_io, wait; cbn.

Lemma logged_app {D} (w : World D) (a b : list LogEntry) :
  logged (logged w a) b = logged w (a ++ b).
Proof. unfold logged; cbn. now rewrite <- app_assoc. Qed.

(** *** [find_reason] *)

Lemma reason_of_code_found (reasons : list (string * Z)) (code : Z) (k : string) :
  Read.reason_of_code reasons code = ReasonName k ->
  In (k, code) reasons.
Proof.
  unfold Read.reason_of_code.
  destruct (filter (fun kv => snd kv =? code) reasons) as [| [k' c'] l] eqn:E;
    [discriminate |].
  intros H; injection H as ->.
  assert (Hin : In (k, c') (filter (fun kv => snd kv =? code) reasons))
    by (rewrite E; now left).
  apply filter_In in Hin as [Hin Hc]. cbn in Hc.
  apply Z.eqb_eq in Hc. now subst.
Qed.

Lemma reason_of_code_raw (reasons : list (string * Z)) (code : Z) :
  (forall k, ~ In (k, code) reasons) ->
  Read.reason_of_code reasons code = ReasonCode code.
Proof.
  intros Hno. unfold Read.reason_of_code.
  destruct (filter (fun kv => snd kv =? code) reasons) as [| [k' c'] l] eqn:E;
    [reflexivity |].
  exfalso. apply (Hno k').
  assert (Hin : In (k', c') (filter (fun kv => snd kv =? code) reasons))
    by (rewrite E; now left).
  apply filter_In in Hin as [Hin Hc]. cbn in Hc.
  apply Z.eqb_eq in Hc. now subst.
Qed.

(** C9 (code as written).  An application error that exposes no error code
    makes [find_reason] fail: the branch that should answer the unknown-error
    reason first calls [self.log_warning], and [self] is not bound in this
    module-level function, so [NameError] is raised instead of a reason being
    returned.  This holds whatever the error class is and whatever tables are
    installed. *)
Theorem find_reason_error_without_code_raises :
  forall (env : Env) (errorClass : option EnumVal),
    Read.find_reason env (ErrorPDU errorClass None) = Raise (NameError "self").
Proof. intros env errorClass. reflexivity. Qed.

(** *** [read]: from the call to the response *)

Section ReadFacts.

Context {D : Type} (env : Env) (gw : Gateway D).

(** A started application whose command builds a request sends it, waits, and
    goes on with the IOCB the device completed. *)
Lemma read_wakes (depth : nat) (args : string) (arr_index : option Z)
      (vendor_id : Z) (w : World D) (request : ReadPropertyRequest)
      (iocb : IOCB) (d' : D) :
  _started w = true ->
  Read.rp_request env (split args) arr_index vendor_id = Return request ->
  request_io gw (RP request) (device w) = (iocb, d') ->
  Read.read env gw (S depth) args arr_index vendor_id w
  = Read.read_response env (Read.read env gw depth) args arr_index vendor_id
                       iocb (read_requested w args request d').
Proof.
  intros Hs Hr Hio. cbn [Read.read]. unfold Read.build_rp_request. run.
  rewrite Hs, Hr. cbn. rewrite Hio.
  unfold read_requested. rewrite Hs. cbn.
  repeat rewrite <- app_assoc. reflexivity.
Qed.

(** The value of an acknowledged read. *)
Lemma read_response_ack (rd : string -> option Z -> Z -> M D Val)
      (args : string) (arr_index : option Z) (vendor_id : Z) (w : World D)
      (objectIdentifier : ObjId) (propertyIdentifier : Ident)
      (propertyArrayIndex : option Z) (propertyValue : Any)
      (ioError : option ErrPDU) (datatype : Datatype) :
  get_datatype env (fst objectIdentifier) propertyIdentifier vendor_id
  = Some datatype ->
  fst (Read.read_response env rd args arr_index vendor_id
         {| ioResponse := Some (ReadPropertyACK objectIdentifier
                                  propertyIdentifier propertyArrayIndex
                                  propertyValue);
            ioError := ioError |} w)
  = Read.cast_out_value datatype propertyArrayIndex propertyValue.
Proof.
  intros Hd. unfold Read.read_response. run. rewrite Hd. cbn.
  destruct (Read.cast_out_value datatype propertyArrayIndex propertyValue);
    reflexivity.
Qed.

(** C3.  A read that is answered by a ReadPropertyACK whose datatype resolves
    decodes the value as follows.  When the datatype is an array and the ACK
    carries an array index (the index the request asked for, echoed by the
    device): index 0 is decoded as [Unsigned] whatever the element type, any
    other index with the array's element type.  In every other case, that is
    a datatype that is no array or an ACK without array index, the value is
    decoded with the resolved datatype itself.  [read] returns what
    [cast_out] returns and raises what it raises. *)
Theorem read_ack_decoding_rule :
  forall (depth : nat) (args : string) (arr_index : option Z) (vendor_id : Z)
         (w : World D) (request : ReadPropertyRequest) (d' : D)
         (objectIdentifier : ObjId) (propertyIdentifier : Ident)
         (propertyArrayIndex : option Z) (propertyValue : Any)
         (ioError : option ErrPDU) (datatype : Datatype),
    _started w = true ->
    Read.rp_request env (split args) arr_index vendor_id = Return request ->
    request_io gw (RP request) (device w)
    = ({| ioResponse := Some (ReadPropertyACK objectIdentifier
                                propertyIdentifier propertyArrayIndex
                                propertyValue);
          ioError := ioError |}, d') ->
    get_datatype env (fst objectIdentifier) propertyIdentifier vendor_id
    = Some datatype ->
    let result := fst (Read.read env gw (S depth) args arr_index vendor_id w) in
    (forall subtype,
        datatype = ArrayOf subtype -> propertyArrayIndex = Some 0 ->
        result = cast_out propertyValue (Atomic Unsigned None))
    /\ (forall subtype i,
           datatype = ArrayOf subtype -> propertyArrayIndex = Some i ->
           i <> 0 ->
           result = cast_out propertyValue subtype)
    /\ (issubclass_Array datatype = false \/ propertyArrayIndex = None ->
        result = cast_out propertyValue datatype).
Proof.
  intros depth args arr_index vendor_id w request d' oid pid idx pv ioe dt
         Hs Hr Hio Hd result.
  assert (Hres : result = Read.cast_out_value dt idx pv).
  { subst result. rewrite (read_wakes _ _ _ _ _ _ _ _ Hs Hr Hio).
    now apply read_response_ack. }
  rewrite Hres. repeat split.
  - intros subtype -> ->. reflexivity.
  - intros subtype i -> -> Hi. cbn.
    destruct (Z.eqb_spec i 0); [contradiction | reflexivity].
  - intros [Hna | ->].
    + destruct dt; try discriminate; reflexivity.
    + destruct dt; reflexivity.
Qed.

End ReadFacts.

(** On the sample device, index 0 of objectList (an array of object
    identifiers) comes back as the unsigned count 3. *)
Lemma read_ack_decoding_rule_witness :
  fst (Read.read Sample.env Sample.unsegmented 1 "2:5 device 1 objectList"
                 (Some 0) 0 (Sample.world tt))
  = Return (VInt 3).
Proof.
  destruct (read_ack_decoding_rule Sample.env Sample.unsegmented 0
              "2:5 device 1 objectList" (Some 0) 0 (Sample.world tt)
              {| rp_objectIdentifier := (Name "device", 1);
                 rp_propertyIdentifier := Name "objectList";
                 rp_propertyArrayIndex := Some 0;
                 rp_pduDestination := "2:5" |}
              tt (Name "device", 1) (Name "objectList") (Some 0)
              (Sample.tagged Unsigned (VInt 3)) None
              (ArrayOf (Atomic ObjectIdentifier None))
              eq_refl eq_refl eq_refl eq_refl) as [H0 _].
  rewrite (H0 (Atomic ObjectIdentifier None) eq_refl eq_refl).
  reflexivity.
Defined.

(** *** [read]: failure responses *)

Section ReadFailures.

Context {D : Type} (env : Env) (gw : Gateway D).

Lemma reason_is_eq (reason : Reason) (name : string) :
  Read.reason_is reason name = true -> reason = ReasonName name.
Proof.
  destruct reason as [s | z]; cbn; [| discriminate].
  intros H. apply String.eqb_eq in H. now subst.
Qed.

(** A failure classified as segmentationNotSupported hands the call over to
    [_split_the_read_request], one level deeper. *)
Lemma read_response_segmentation (depth : nat) (args : string)
      (arr_index : option Z) (vendor_id : Z) (w : World D) (apdu : ErrPDU)
      (reason : Reason) :
  Read.find_reason env apdu = Return reason ->
  Read.reason_is reason "segmentationNotSupported" = true ->
  Read.read_response env (Read.read env gw depth) args arr_index vendor_id
                     {| ioResponse := None; ioError := Some apdu |} w
  = Read._split_the_read_request env gw depth args arr_index
      (logged w
         [ debug "Segmentation not supported... will read properties one by one..." [];
           debug "The Request was : %s" [ATokens (split args)] ]).
Proof.
  intros Hf Hseg. unfold Read.read_response, Read._split_the_read_request.
  run. rewrite Hf. cbn. rewrite Hseg. cbn.
  unfold logged. cbn. rewrite <- app_assoc. reflexivity.
Qed.

(** Any other reason is raised as NoResponseFromController. *)
Lemma read_response_other_failure (rd : string -> option Z -> Z -> M D Val)
      (args : string) (arr_index : option Z) (vendor_id : Z) (w : World D)
      (apdu : ErrPDU) (reason : Reason) :
  Read.find_reason env apdu = Return reason ->
  Read.reason_is reason "segmentationNotSupported" = false ->
  Read.read_response env rd args arr_index vendor_id
                     {| ioResponse := None; ioError := Some apdu |} w
  = (Raise (NoResponseFromController
              ("APDU Abort Reason : " ++ Read.reason_str reason)),
     if Read.reason_is reason "unknownProperty"
     then logged w [ warning "Unknown property %s" [AStr args] ]
     else w).
Proof.
  intros Hf Hseg. unfold Read.read_response. run. rewrite Hf. cbn.
  rewrite Hseg.
  destruct (Read.reason_is reason "unknownProperty"); cbn; [reflexivity |].
  now destruct w.
Qed.

(** C8 (as the code has it).  A single read whose failure response classifies
    as unknownProperty writes the warning "Unknown property" and then raises
    NoResponseFromController: no value reaches the caller. *)
Theorem read_unknown_property_warns_and_raises :
  forall (depth : nat) (args : string) (arr_index : option Z) (vendor_id : Z)
         (w : World D) (request : ReadPropertyRequest) (d' : D)
         (apdu : ErrPDU) (reason : Reason),
    _started w = true ->
    Read.rp_request env (split args) arr_index vendor_id = Return request ->
    request_io gw (RP request) (device w)
    = ({| ioResponse := None; ioError := Some apdu |}, d') ->
    Read.find_reason env apdu = Return reason ->
    Read.reason_is reason "unknownProperty" = true ->
    Read.read env gw (S depth) args arr_index vendor_id w
    = (Raise (NoResponseFromController "APDU Abort Reason : unknownProperty"),
       logged (read_requested w args request d')
              [ warning "Unknown property %s" [AStr args] ]).
Proof.
  intros depth args arr_index vendor_id w request d' apdu reason
         Hs Hr Hio Hf Hun.
  rewrite (read_wakes _ _ _ _ _ _ _ _ _ _ Hs Hr Hio).
  pose proof (reason_is_eq _ _ Hun) as ->.
  rewrite (read_response_other_failure _ _ _ _ _ _ _ Hf eq_refl).
  reflexivity.
Qed.

End ReadFailures.


(** C8 (counterexample).  The sample device answers the read of a
    description with the error code unknownProperty.  The failure classifies
    as unknownProperty, and the call returns no value: it raises. *)
Lemma read_unknown_property_returns_no_value :
  Read.find_reason Sample.env Sample.unknown_property
  = Return (ReasonName "unknownProperty")
  /\ (let result :=
        fst (Read.read Sample.env
               (Sample.always (Sample.failure Sample.unknown_property)) 1
               "2:5 analogInput 1 description" None 0 (Sample.world tt)) in
      result
      = Raise (NoResponseFromController "APDU Abort Reason : unknownProperty")
      /\ forall v, result <> Return v).
Proof.
  repeat split; try reflexivity.
  intros v. vm_compute. discriminate.
Qed.

Lemma read_unknown_property_warns_and_raises_witness :
  Read.read Sample.env (Sample.always (Sample.failure Sample.unknown_property))
            1 "2:5 analogInput 1 description" None 0 (Sample.world tt)
  = (Raise (NoResponseFromController "APDU Abort Reason : unknownProperty"),
     logged (read_requested (Sample.world tt) "2:5 analogInput 1 description"
               {| rp_objectIdentifier := (Name "analogInput", 1);
                  rp_propertyIdentifier := Name "description";
                  rp_propertyArrayIndex := None;
                  rp_pduDestination := "2:5" |} tt)
            [ warning "Unknown property %s"
                      [AStr "2:5 analogInput 1 description"] ]).
Proof.
  exact (read_unknown_property_warns_and_raises Sample.env
           (Sample.always (Sample.failure Sample.unknown_property)) 0
           "2:5 analogInput 1 description" None 0 (Sample.world tt) _ tt
           Sample.unknown_property (ReasonName "unknownProperty")
           eq_refl eq_refl eq_refl eq_refl eq_refl).
Defined.

(** *** The segmentation fallback *)

Section Fallback.

Context {D : Type} (env : Env) (gw : Gateway D).

(** A command without index token builds, for every [arr_index], the same
    request up to the index. *)
Lemma rp_request_at_index (toks : list string) (request0 : ReadPropertyRequest)
      (i : Z) :
  Read.rp_request env toks None 0 = Return request0 ->
  rp_propertyArrayIndex request0 = None ->
  Read.rp_request env toks (Some i) 0 = Return (at_index request0 i).
Proof.
  unfold Read.rp_request.
  destruct toks as [| addr [| obj_type [| obj_inst [| prop_id rest]]]];
    try discriminate.
  destruct (Read.rp_obj_type env obj_type) as [ot | e]; [| discriminate].
  destruct (int obj_inst) as [oi | e]; [| discriminate].
  destruct (Read.prop_ident prop_id) as [pid | e]; [| discriminate].
  cbn [res_bind].
  destruct (get_datatype env ot pid 0); [| discriminate].
  destruct (Address env addr) as [dst | e]; [| discriminate].
  cbn [res_bind].
  destruct (Nat.eqb (List.length (addr :: obj_type :: obj_inst :: prop_id :: rest)) 5).
  - destruct (int (List.nth 4%nat (addr :: obj_type :: obj_inst :: prop_id :: rest) ""));
      cbn; [| discriminate].
    intros H. injection H as <-. cbn. discriminate.
  - cbn. intros H _. injection H as <-. reflexivity.
Qed.




End Fallback.

(** *** Failures inside the fallback *)

Section NestedFailure.

Context {D : Type} (env : Env) (gw : Gateway D).



End NestedFailure.










(** *** [readMultiple] *)

Section ReadMultipleFacts.

Context {D : Type} (env : Env) (gw : Gateway D).

Lemma readMultiple_wakes (args : string) (w : World D)
      (request : ReadPropertyMultipleRequest) (iocb : IOCB) (d' : D) :
  _started w = true ->
  Read.rpm_request env (split args) = Return request ->
  request_io gw (RPM request) (device w) = (iocb, d') ->
  Read.readMultiple env gw args w
  = Read.readMultiple_response env (split args) [] iocb
                               (rpm_requested w args request d').
Proof.
  intros Hs Hr Hio. unfold Read.readMultiple, Read.build_rpm_request. run.
  rewrite Hs, Hr. cbn. rewrite Hio.
  unfold rpm_requested. rewrite Hs. cbn.
  repeat rewrite <- app_assoc. reflexivity.
Qed.

Lemma listOfResults_loop_error (objectIdentifier : ObjId)
      (element : ReadAccessResultElement) (rest : list ReadAccessResultElement)
      (values : list Val) (w : World D) (e : ErrorType) :
  el_readResult element = ResultError e ->
  Read.listOfResults_loop env objectIdentifier (element :: rest) values w
  = Read.listOfResults_loop env objectIdentifier rest values
      (logged w (element_header element ++ [ error " ! " [AAccessError e] ])).
Proof.
  intros He. cbn [Read.listOfResults_loop]. run. rewrite He.
  unfold logged, element_header. cbn.
  destruct (el_propertyArrayIndex element); cbn;
    repeat rewrite <- app_assoc; reflexivity.
Qed.


End ReadMultipleFacts.

Section ReadMultipleClaims.

Context {D : Type} (env : Env) (gw : Gateway D).

(** However many properties the response carries, the traversal hands back at
    most one decoded value: it either falls through with nothing collected,
    or returns a one-element list, or raises. *)
Lemma listOfResults_loop_at_most_one (objectIdentifier : ObjId)
      (elements : list ReadAccessResultElement) (w : World D) :
  match fst (Read.listOfResults_loop env objectIdentifier elements [] w) with
  | Return (Read.Fallthrough values) => values = []
  | Return (Read.Returned v) => exists x, v = VList [x]
  | Raise _ => True
  end.
Proof.
  revert w. induction elements as [| element rest IH]; intros w.
  - reflexivity.
  - destruct (el_readResult element) as [pv | e] eqn:He.
    + cbn [Read.listOfResults_loop]. run. rewrite He.
      destruct (el_propertyArrayIndex element); cbn;
        (destruct (get_datatype env (fst objectIdentifier)
                     (el_propertyIdentifier element) 0) as [dt |]; cbn;
         [| exact I]);
        match goal with
        | |- context [Read.cast_out_value ?a ?b ?c] =>
            destruct (Read.cast_out_value a b c); cbn; [eexists; reflexivity | exact I]
        end.
    + rewrite (listOfResults_loop_error env _ _ _ _ _ _ He). apply IH.
Qed.

Lemma listOfReadAccessResults_loop_at_most_one
      (results : list ReadAccessResult) (w : World D) :
  match fst (Read.listOfReadAccessResults_loop env results [] w) with
  | Return (Read.Fallthrough values) => values = []
  | Return (Read.Returned v) => exists x, v = VList [x]
  | Raise _ => True
  end.
Proof.
  revert w. induction results as [| result rest IH]; intros w.
  - reflexivity.
  - cbn [Read.listOfReadAccessResults_loop]. unfold bind at 1.
    unfold log_debug, log_call. unfold bind at 1.
    match goal with
    | |- context [Read.listOfResults_loop env ?o ?l [] ?w1] =>
        pose proof (listOfResults_loop_at_most_one o l w1) as H1;
        destruct (Read.listOfResults_loop env o l [] w1) as [[[vs | v] | e] w2]
    end; cbn in H1 |- *.
    + subst vs. apply IH.
    + exact H1.
    + exact I.
Qed.

(** A group in which every property carries an access error is traversed to
    its end: nothing is raised, [values] stay as they were, and the log grows
    by entries among which every error stands. *)
Lemma listOfResults_loop_all_errors (objectIdentifier : ObjId)
      (elements : list ReadAccessResultElement) :
  (forall el, In el elements -> exists e, el_readResult el = ResultError e) ->
  forall (values : list Val) (w : World D),
  exists entries,
    Read.listOfResults_loop env objectIdentifier elements values w
    = (Return (Read.Fallthrough values), logged w entries)
    /\ forall el e, In el elements -> el_readResult el = ResultError e ->
                    In (error " ! " [AAccessError e]) entries.
Proof.
  induction elements as [| element rest IH]; intros Hall values w.
  - exists []. split; [| intros el e []].
    cbn. unfold ret, logged. rewrite app_nil_r. now destruct w.
  - destruct (Hall element (or_introl eq_refl)) as [e0 He0].
    rewrite (listOfResults_loop_error env _ _ _ _ _ _ He0).
    destruct (IH (fun el Hin => Hall el (or_intror Hin)) values
                 (logged w (element_header element
                            ++ [ error " ! " [AAccessError e0] ])))
      as (entries & Hrun & Hlog).
    exists ((element_header element ++ [ error " ! " [AAccessError e0] ])
            ++ entries)%list.
    split.
    + rewrite Hrun. now rewrite logged_app.
    + intros el e [<- | Hin] He.
      * rewrite He0 in He. injection He as <-.
        apply in_or_app. left. apply in_or_app. right. now left.
      * apply in_or_app. right. now apply (Hlog el).
Qed.

(** C4 (as the code has it).  When the traversal of a group comes to a
    property whose read result is an access error, it writes the error to
    the log (at level ERROR, after the lines every property gets) and goes on
    with the next property of the same group, the collected [values] being
    what they were: nothing is raised, and nothing is recorded in the result
    for that property.  So a group whose properties all carry access errors
    is traversed to its end without an exception, leaves [values] untouched
    and has every one of its errors in the log. *)
Theorem access_error_is_logged_and_skipped :
  forall (objectIdentifier : ObjId) (values : list Val) (w : World D),
    (forall (element : ReadAccessResultElement)
            (rest : list ReadAccessResultElement) (e : ErrorType),
        el_readResult element = ResultError e ->
        Read.listOfResults_loop env objectIdentifier (element :: rest) values w
        = Read.listOfResults_loop env objectIdentifier rest values
            (logged w (element_header element
                       ++ [ error " ! " [AAccessError e] ])))
    /\ (forall (elements : list ReadAccessResultElement),
           (forall el, In el elements ->
                       exists e, el_readResult el = ResultError e) ->
           exists w',
             Read.listOfResults_loop env objectIdentifier elements values w
             = (Return (Read.Fallthrough values), w')
             /\ forall el e, In el elements ->
                             el_readResult el = ResultError e ->
                             In (error " ! " [AAccessError e]) (log w')).
Proof.
  intros objectIdentifier values w. split.
  - intros element rest e He. cbn [Read.listOfResults_loop]. run. rewrite He.
    unfold logged, element_header. cbn.
    destruct (el_propertyArrayIndex element); cbn;
      repeat rewrite <- app_assoc; reflexivity.
  - intros elements Hall.
    destruct (listOfResults_loop_all_errors objectIdentifier elements Hall
                values w) as (entries & Hrun & Hlog).
    exists (logged w entries). split; [exact Hrun |].
    intros el e Hin He. cbn. apply in_or_app. right. now apply (Hlog el).
Qed.


End ReadMultipleClaims.

(** C1 (code as written).  The sample device answers
    "2:5 analogInput 1 presentValue units" with one group whose two
    properties both decode, to 72.5 and to degreesCelsius.  [readMultiple]
    returns the one-element list [[72.5]]: the [return] stands inside the
    inner loop, right after the first [append], so the second property is
    never reached. *)
Theorem readMultiple_returns_after_first_value :
  Read.cast_out_value (Atomic Real None) None
                      (Sample.tagged Real Sample.seventy_two_and_a_half)
  = Return Sample.seventy_two_and_a_half
  /\ Read.cast_out_value (Atomic Enumerated (Some "EngineeringUnits")) None
                         (Sample.tagged Enumerated (VStr "degreesCelsius"))
     = Return (VStr "degreesCelsius")
  /\ fst (Read.readMultiple Sample.env
            (Sample.always (Sample.success Sample.ai1_value_units))
            "2:5 analogInput 1 presentValue units" (Sample.world tt))
     = Return (VList [Sample.seventy_two_and_a_half])
  /\ fst (Read.readMultiple Sample.env
            (Sample.always (Sample.success Sample.ai1_value_units))
            "2:5 analogInput 1 presentValue units" (Sample.world tt))
     <> Return (VList [Sample.seventy_two_and_a_half; VStr "degreesCelsius"]).
Proof.
  repeat split; try reflexivity.
  vm_compute. discriminate.
Qed.

(** C4 (counterexample).  The sample device answers
    "2:5 analogInput 1 description presentValue" with an access error for
    description and the value 72.5 for presentValue.  The error is written to
    the log and the traversal goes on to presentValue, but the returned list
    is [[72.5]]: it has one entry for two properties, and no entry, absent
    marker or other, stands for description. *)
Lemma access_error_leaves_no_slot :
  let outcome :=
    Read.readMultiple Sample.env
      (Sample.always (Sample.success Sample.ai1_error_value))
      "2:5 analogInput 1 description presentValue" (Sample.world tt) in
  fst outcome = Return (VList [Sample.seventy_two_and_a_half])
  /\ In (error " ! " [AAccessError Sample.access_error]) (log (snd outcome))
  /\ (forall values,
         fst outcome = Return (VList values) ->
         List.length values = 1%nat /\ ~ In VNone values).
Proof.
  cbv zeta. split; [reflexivity |]. split.
  - vm_compute. do 5 right. left. reflexivity.
  - intros values H. vm_compute in H. injection H as <-. split; [reflexivity |].
    intros [H | []]. discriminate.
Qed.

Lemma access_error_is_logged_and_skipped_witness :
  Read.listOfResults_loop Sample.env (Name "analogInput", 1)
    [ Sample.element "description" (ResultError Sample.access_error);
      Sample.element "presentValue"
        (ResultValue (Sample.tagged Real Sample.seventy_two_and_a_half)) ]
    [] (Sample.world tt)
  = Read.listOfResults_loop Sample.env (Name "analogInput", 1)
      [ Sample.element "presentValue"
          (ResultValue (Sample.tagged Real Sample.seventy_two_and_a_half)) ]
      []
      (logged (Sample.world tt)
         [ debug "- propertyIdentifier: %r" [AIdent (Name "description")];
           debug "- propertyArrayIndex: %r" [AIndex None];
           error " ! " [AAccessError Sample.access_error] ])
  /\ exists w',
      Read.listOfResults_loop Sample.env (Name "analogInput", 1)
        [ Sample.element "description" (ResultError Sample.access_error);
          Sample.element "units" (ResultError Sample.access_error) ]
        [] (Sample.world tt)
      = (Return (Read.Fallthrough []), w')
      /\ forall el e,
          In el [ Sample.element "description" (ResultError Sample.access_error);
                  Sample.element "units" (ResultError Sample.access_error) ] ->
          el_readResult el = ResultError e ->
          In (error " ! " [AAccessError e]) (log w').
Proof.
  destruct (access_error_is_logged_and_skipped Sample.env
              (Name "analogInput", 1) [] (Sample.world tt)) as [Hstep Hall].
  split.
  - exact (Hstep (Sample.element "description" (ResultError Sample.access_error))
                 _ Sample.access_error eq_refl).
  - apply Hall. intros el [<- | [<- | []]]; eexists; reflexivity.
Defined.



(** *** [build_wp_request] *)

(** C5 (code as written).  For an array datatype and array index 0 the value
    token, unless it is the literal null, is handed as it is, a string, to
    the constructor of [Integer], the signed integer class, not to that of
    [Unsigned]; this holds for every element type and every installation.
    [Integer] does not take a string: on the sample installation the command
    "2:5 analogValue 1 priorityArray 5 0" ends in TypeError and no
    WriteProperty request is built. *)
Theorem array_length_write_uses_Integer :
  (forall (env : Env) (subtype : Datatype) (value : string),
      Write.encodeable_value env (Some (ArrayOf subtype)) value (Some 0)
      = if String.eqb value "null" then Return WNull
        else Write.construct env (Atomic Integer None) (VStr value))
  /\ (exists msg,
        fst (Write.build_wp_request Sample.env
               (split "2:5 analogValue 1 priorityArray 5 0") 0
               (Sample.world tt))
        = Raise (TypeError msg))
  /\ (forall request,
        fst (Write.build_wp_request Sample.env
               (split "2:5 analogValue 1 priorityArray 5 0") 0
               (Sample.world tt))
        <> Return request).
Proof.
  split; [| split].
  - intros env subtype value. unfold Write.encodeable_value.
    destruct (String.eqb value "null"); reflexivity.
  - eexists. vm_compute. reflexivity.
  - intros request. vm_compute. discriminate.
Qed.

(** *** Writing a value and reading it back *)




(** *** [build_rpm_request]: the token loops end *)

Section TokenLoops.

Context (env : Env).

Lemma prop_reference_loop_remaining (obj_type : Ident) :
  forall (n : nat) (toks : list string) (acc refs : list PropertyReference)
         (remaining : list string),
    (List.length toks <= n)%nat ->
    Read.prop_reference_loop env obj_type toks acc = Return (refs, remaining) ->
    (List.length remaining <= List.length toks)%nat.
Proof.
  induction n as [| n IH]; intros toks acc refs remaining Hn H.
  - destruct toks; [| cbn in Hn; lia]. cbn in H. injection H as _ <-. cbn. lia.
  - destruct toks as [| prop_id rest].
    + cbn in H. injection H as _ <-. cbn. lia.
    + cbn [Read.prop_reference_loop] in H.
      destruct (negb (Read.in_enumerations prop_id
                        (PropertyIdentifier_enumerations env))).
      * injection H as _ <-. lia.
      * match type of H with
        | res_bind ?c _ = _ => destruct c; cbn [res_bind] in H; [| discriminate]
        end.
        cbn in Hn.
        destruct rest as [| tok rest'].
        -- apply IH in H; cbn in *; lia.
        -- destruct (isdigit tok).
           ++ destruct (int tok); cbn [res_bind] in H; [| discriminate].
              apply IH in H; cbn in *; lia.
           ++ apply IH in H; cbn in *; lia.
Qed.

(** With as much fuel as there are tokens, the outer loop never runs dry. *)
Lemma read_access_spec_loop_fuel :
  forall (fuel : nat) (toks : list string)
         (acc : list ReadAccessSpecification),
    (List.length toks <= fuel)%nat ->
    Read.read_access_spec_loop env fuel toks acc <> None.
Proof.
  induction fuel as [| fuel IH]; intros toks acc Hn.
  - destruct toks; [discriminate | cbn in Hn; lia].
  - destruct toks as [| obj_type rest]; [discriminate |].
    cbn [Read.read_access_spec_loop].
    destruct (Read.rp_obj_type env obj_type); [| discriminate].
    destruct rest as [| obj_inst rest']; [discriminate |].
    destruct (int obj_inst); [| discriminate].
    destruct (Read.prop_reference_loop env a rest' []) as [[refs remaining] | e]
      eqn:Hloop; [| discriminate].
    destruct refs; [discriminate |].
    apply IH.
    apply (prop_reference_loop_remaining _ _ _ _ _ _ (le_n _)) in Hloop.
    cbn in Hn. lia.
Qed.

End TokenLoops.

(** *** Further properties of the entry points *)

Section EntryPoints.

Context {D : Type} (env : Env) (gw : Gateway D).

(** X1.  While the stack is not started, every entry point raises
    ApplicationNotStarted at once: no request is built or sent and nothing is
    logged. *)
Theorem not_started_fails_first :
  forall (w : World D),
    _started w = false ->
    (forall depth args arr_index vendor_id,
        Read.read env gw (S depth) args arr_index vendor_id w
        = (Raise (ApplicationNotStarted "BACnet stack not running - use startApp()"), w))
    /\ (forall args,
           Read.readMultiple env gw args w
           = (Raise (ApplicationNotStarted "BACnet stack not running - use startApp()"), w))
    /\ (forall args vendor_id,
           Write.write env gw args vendor_id w
           = (Raise (ApplicationNotStarted "BACnet stack not running - use startApp()"), w)).
Proof.
  intros w Hs. repeat split; intros.
  - cbn [Read.read]. run. now rewrite Hs.
  - unfold Read.readMultiple. run. now rewrite Hs.
  - unfold Write.write. run. now rewrite Hs.
Qed.

(** X2.  An acknowledged [readMultiple] gives back [None] or a list of exactly
    one decoded value, whatever the number of groups and properties in the
    acknowledgment. *)
Theorem readMultiple_ack_at_most_one_value :
  forall (args : string) (w : World D) (request : ReadPropertyMultipleRequest)
         (results : list ReadAccessResult) (d' : D),
    _started w = true ->
    Read.rpm_request env (split args) = Return request ->
    request_io gw (RPM request) (device w)
    = ({| ioResponse := Some (ReadPropertyMultipleACK results);
          ioError := None |}, d') ->
    match fst (Read.readMultiple env gw args w) with
    | Return v => v = VNone \/ exists x, v = VList [x]
    | Raise _ => True
    end.
Proof.
  intros args w request results d' Hs Hr Hio.
  rewrite (readMultiple_wakes _ _ _ _ _ _ _ Hs Hr Hio).
  unfold Read.readMultiple_response. cbn [ioResponse ioError].
  unfold bind at 1.
  match goal with
  | |- context [Read.listOfReadAccessResults_loop env results [] ?w1] =>
      pose proof (listOfReadAccessResults_loop_at_most_one env results w1) as H1;
      destruct (Read.listOfReadAccessResults_loop env results [] w1)
        as [[[vs | v] | e] w2]
  end; cbn in H1 |- *; auto.
Qed.

(** X3.  Against a device that answers every read with a failure classified
    as segmentationNotSupported, the fallback nests until the interpreter's
    recursion allowance is used up: with an allowance of [depth] frames,
    [read] sends [depth] requests and raises RecursionError. *)
Theorem read_segmentation_recursion :
  forall (args : string) (request0 : ReadPropertyRequest) (apdu : ErrPDU)
         (reason : Reason),
    Read.rp_request env (split args) None 0 = Return request0 ->
    rp_propertyArrayIndex request0 = None ->
    (forall r d, exists d',
        request_io gw (RP r) d
        = ({| ioResponse := None; ioError := Some apdu |}, d')) ->
    Read.find_reason env apdu = Return reason ->
    Read.reason_is reason "segmentationNotSupported" = true ->
    forall (depth : nat) (arr_index : option Z) (w : World D),
      _started w = true ->
      exists w',
        Read.read env gw depth args arr_index 0 w = (Raise RecursionError, w')
        /\ _started w' = true
        /\ List.length (sent w') = (List.length (sent w) + depth)%nat.
Proof.
  intros args request0 apdu reason Hr0 Hnone Hdev Hf Hseg.
  induction depth as [| depth IH]; intros arr_index w Hs.
  - exists w. cbn. auto.
  - assert (Hr : exists request,
               Read.rp_request env (split args) arr_index 0 = Return request).
    { destruct arr_index as [i |].
      - eexists. exact (rp_request_at_index env _ _ i Hr0 Hnone).
      - eauto. }
    destruct Hr as [request Hr].
    destruct (Hdev request (device w)) as [d' Hio].
    rewrite (read_wakes _ _ _ _ _ _ _ _ _ _ Hs Hr Hio).
    rewrite (read_response_segmentation _ _ _ _ _ _ _ _ _ Hf Hseg).
    unfold Read._split_the_read_request, Read.split_with.
    set (w1 := logged _ _).
    destruct (IH (Some 0) w1 Hs) as (w2 & Hread & Hs2 & Hlen).
    unfold bind at 1. rewrite Hread.
    exists w2. split; [reflexivity |]. split; [exact Hs2 |].
    rewrite Hlen. subst w1. cbn [sent logged read_requested].
    rewrite length_app. cbn. lia.
Qed.

Ltac crack :=
  repeat match goal with
         | |- context [match ?c with _ => _ end] =>
             lazymatch c with
             | context [match _ with _ => _ end] => fail
             | _ => destruct c; cbn; try discriminate
             end
         end.

Ltac exists_priority H :=
  revert H; unfold Write.build_wp_request; run; crack;
  intros H; injection H as <-; eexists; split; reflexivity.

(** X4.  The priority token reaches the request as [int] reads it and no
    range is checked: whatever integer the seventh token denotes, the command
    builds a request exactly when the same command without priority does,
    fails as that one fails, and the request is that one with the integer as
    its priority. *)
Theorem write_priority_passthrough :
  forall (addr obj_type obj_inst prop_id value tok5 tok6 : string)
         (rest : list string) (vendor_id : Z) (w : World D) (p : Z),
    int tok6 = Return p ->
    fst (Write.build_wp_request env
           (addr :: obj_type :: obj_inst :: prop_id :: value :: tok5 :: tok6
              :: rest) vendor_id w)
    = match fst (Write.build_wp_request env
                   [addr; obj_type; obj_inst; prop_id; value; tok5]
                   vendor_id w) with
      | Return request => Return (with_priority request (Some p))
      | Raise e => Raise e
      end.
Proof.
  intros addr obj_type obj_inst prop_id value tok5 tok6 rest vendor_id w p Hp.
  unfold Write.build_wp_request.
  replace (Nat.leb 6 (List.length
             (addr :: obj_type :: obj_inst :: prop_id :: value :: tok5 :: tok6
                :: rest))) with true by reflexivity.
  replace (Nat.leb 7 (List.length
             (addr :: obj_type :: obj_inst :: prop_id :: value :: tok5 :: tok6
                :: rest))) with true by reflexivity.
  cbn [List.nth List.length Nat.leb]. rewrite Hp. run.
  destruct (Write.wp_ident obj_type) as [ot | e]; cbn; [| reflexivity].
  destruct (int obj_inst) as [oi | e]; cbn; [| reflexivity].
  destruct (String.eqb tok5 "-"); cbn.
  - crack; reflexivity.
  - destruct (int tok5) as [i | e]; cbn; [| reflexivity].
    crack; reflexivity.
Qed.

End EntryPoints.

Lemma not_started_fails_first_witness :
  Read.read Sample.env Sample.unsegmented 1 "2:5 device 1 objectList" None 0
            {| _started := false; device := tt; sent := []; log := [] |}
  = (Raise (ApplicationNotStarted "BACnet stack not running - use startApp()"),
     {| _started := false; device := tt; sent := []; log := [] |}).
Proof.
  destruct (not_started_fails_first Sample.env Sample.unsegmented
              {| _started := false; device := tt; sent := []; log := [] |}
              eq_refl) as [H _].
  exact (H 0%nat "2:5 device 1 objectList" None 0).
Defined.

Lemma readMultiple_ack_at_most_one_value_witness :
  match fst (Read.readMultiple Sample.env
               (Sample.always (Sample.success Sample.ai1_value_units))
               "2:5 analogInput 1 presentValue units" (Sample.world tt)) with
  | Return v => v = VNone \/ exists x, v = VList [x]
  | Raise _ => True
  end.
Proof.
  exact (readMultiple_ack_at_most_one_value Sample.env
           (Sample.always (Sample.success Sample.ai1_value_units))
           "2:5 analogInput 1 presentValue units" (Sample.world tt)
           {| rpm_listOfReadAccessSpecs :=
                [ {| ras_objectIdentifier := (Name "analogInput", 1);
                     ras_listOfPropertyReferences :=
                       [ {| pr_propertyIdentifier := "presentValue";
                            pr_propertyArrayIndex := None |};
                         {| pr_propertyIdentifier := "units";
                            pr_propertyArrayIndex := None |} ] |} ];
              rpm_pduDestination := "2:5" |}
           _ tt eq_refl eq_refl eq_refl).
Defined.

(** With room for seven frames, seven requests go out before RecursionError. *)
Lemma read_segmentation_recursion_witness :
  exists w',
    Read.read Sample.env (Sample.always (Sample.failure (AbortPDU 4))) 7
              "2:5 device 1 objectList" None 0 (Sample.world tt)
    = (Raise RecursionError, w')
    /\ _started w' = true
    /\ List.length (sent w') = 7%nat.
Proof.
  exact (read_segmentation_recursion Sample.env
           (Sample.always (Sample.failure (AbortPDU 4)))
           "2:5 device 1 objectList" Sample.objectList_request (AbortPDU 4)
           (ReasonName "segmentationNotSupported") eq_refl eq_refl
           (fun r d => ex_intro _ d eq_refl) eq_refl eq_refl
           7%nat None (Sample.world tt) eq_refl).
Defined.

(** Priority 99 is outside 1..16 and is written into the request. *)
Lemma write_priority_passthrough_witness :
  fst (Write.build_wp_request Sample.env
         [ "2:5"; "analogValue"; "1"; "presentValue"; "72.5"; "-"; "99" ] 0
         (Sample.world tt))
  = Return (with_priority Sample.av1_wp_request (Some 99)).
Proof.
  exact (write_priority_passthrough Sample.env "2:5" "analogValue" "1"
           "presentValue" "72.5" "-" "99" [] 0 (Sample.world tt) 99 eq_refl).
Defined.

(** X5.  For a reject or an abort PDU [find_reason] returns a reason and never
    raises: a name only when the table lists it under the PDU's code, and the
    raw code when the table has no name for it. *)
Theorem find_reason_reject_abort_lookup :
  forall (env : Env) (code : Z),
    (forall k, Read.find_reason env (RejectPDU code) = Return (ReasonName k) ->
               In (k, code) (RejectReason_enumerations env))
    /\ ((forall k, ~ In (k, code) (RejectReason_enumerations env)) ->
        Read.find_reason env (RejectPDU code) = Return (ReasonCode code))
    /\ (forall k, Read.find_reason env (AbortPDU code) = Return (ReasonName k) ->
                  In (k, code) (AbortReason_enumerations env))
    /\ ((forall k, ~ In (k, code) (AbortReason_enumerations env)) ->
        Read.find_reason env (AbortPDU code) = Return (ReasonCode code))
    /\ (forall e, Read.find_reason env (RejectPDU code) <> Raise e)
    /\ (forall e, Read.find_reason env (AbortPDU code) <> Raise e).
Proof.
  intros env code. repeat split; try (intros; discriminate).
  - intros k H. cbn in H. injection H as H. now apply reason_of_code_found.
  - intros H. cbn. now rewrite reason_of_code_raw.
  - intros k H. cbn in H. injection H as H. now apply reason_of_code_found.
  - intros H. cbn. now rewrite reason_of_code_raw.
Qed.

(** Abort code 200 has no name in the bacpypes table and comes back as 200;
    abort code 4 comes back under a name the table lists for it. *)
Lemma find_reason_reject_abort_lookup_witness :
  Read.find_reason Sample.env (AbortPDU 200) = Return (ReasonCode 200)
  /\ In ("segmentationNotSupported", 4) Sample.AbortReason
  /\ Read.find_reason Sample.env (RejectPDU 200) = Return (ReasonCode 200)
  /\ In ("unrecognizedService", 9) Sample.RejectReason.
Proof.
  assert (Hno : forall (table : list (string * Z)),
             forallb (fun kv => negb (snd kv =? 200)) table = true ->
             forall k, ~ In (k, 200) table).
  { intros table Hall k Hin. rewrite forallb_forall in Hall.
    specialize (Hall _ Hin). cbn in Hall. discriminate. }
  destruct (find_reason_reject_abort_lookup Sample.env 200)
    as (_ & Hr200 & _ & Ha200 & _).
  destruct (find_reason_reject_abort_lookup Sample.env 4)
    as (_ & _ & Ha4 & _).
  destruct (find_reason_reject_abort_lookup Sample.env 9)
    as (Hr9 & _).
  split; [exact (Ha200 (Hno Sample.AbortReason eq_refl)) |].
  split; [exact (Ha4 "segmentationNotSupported" eq_refl) |].
  split; [exact (Hr200 (Hno Sample.RejectReason eq_refl)) |].
  exact (Hr9 "unrecognizedService" eq_refl).
Defined.

(** X6.  For an application error that exposes an error class and an error
    code, [find_reason] returns the error code's name. *)
Theorem find_reason_error_code_name :
  forall (env : Env) (errorClass errorCode : option EnumVal),
    truthy errorCode = true -> truthy errorClass = true ->
    Read.find_reason env (ErrorPDU errorClass errorCode)
    = Return (ReasonName (percent_s errorCode)).
Proof. intros env errorClass errorCode H1 H2. cbn. now rewrite H1, H2. Qed.

Lemma find_reason_error_code_name_witness :
  Read.find_reason Sample.env Sample.unknown_property
  = Return (ReasonName "unknownProperty").
Proof.
  exact (find_reason_error_code_name Sample.env (Some (Name "property"))
           (Some (Name "unknownProperty")) eq_refl eq_refl).
Defined.

(** X7.  The literal token null is written as [Null()] whatever the datatype
    and the array index are, also where the datatype is a string or another
    atomic class that would accept the token's text. *)
Theorem null_token_is_written_as_Null :
  forall (env : Env) (datatype : option Datatype) (indx : option Z),
    Write.encodeable_value env datatype "null" indx = Return WNull.
Proof. intros env datatype indx. reflexivity. Qed.

(** *** [build_rpm_request]: what a built request looks like *)

Section RpmRequest.

Context (env : Env).

Lemma prop_reference_loop_accepted (obj_type : Ident) :
  forall (n : nat) (toks : list string) (acc refs : list PropertyReference)
         (remaining : list string),
    (List.length toks <= n)%nat ->
    Read.prop_reference_loop env obj_type toks acc = Return (refs, remaining) ->
    Forall (accepted_reference env obj_type) acc ->
    Forall (accepted_reference env obj_type) refs.
Proof.
  induction n as [| n IH]; intros toks acc refs remaining Hn H Hacc.
  - destruct toks; [| cbn in Hn; lia]. cbn in H. now injection H as <- _.
  - destruct toks as [| prop_id rest].
    + cbn in H. now injection H as <- _.
    + cbn [Read.prop_reference_loop] in H.
      destruct (Read.in_enumerations prop_id
                  (PropertyIdentifier_enumerations env)) eqn:Henum;
        cbn [negb] in H; [| now injection H as <- _].
      assert (Hok : forall i,
                 accepted_reference env obj_type
                   {| pr_propertyIdentifier := prop_id;
                      pr_propertyArrayIndex := i |} \/
                 (if Read.is_wildcard prop_id then Return tt
                  else match get_datatype env obj_type (Name prop_id) 0 with
                       | Some _ => Return tt
                       | None =>
                           Raise (ValueError
                                    "invalid property for object type : %s | %s")
                       end) <> Return tt).
      { intros i. unfold accepted_reference. cbn.
        destruct (Read.is_wildcard prop_id); [left; auto |].
        destruct (get_datatype env obj_type (Name prop_id) 0);
          [left; split; [exact Henum | right; discriminate]
          | right; discriminate]. }
      match type of H with
      | res_bind ?c _ = _ =>
          destruct c as [[] | e] eqn:Hc; cbn [res_bind] in H; [| discriminate]
      end.
      assert (Hacc' : forall i,
                 Forall (accepted_reference env obj_type)
                        (acc ++ [ {| pr_propertyIdentifier := prop_id;
                                     pr_propertyArrayIndex := i |} ])).
      { intros i. apply Forall_app. split; [exact Hacc |].
        constructor; [| constructor].
        destruct (Hok i) as [Hi | Hi]; [exact Hi | now elim Hi]. }
      cbn in Hn.
      destruct rest as [| tok rest'].
      * eapply IH; [| exact H | apply Hacc']. cbn; lia.
      * destruct (isdigit tok).
        -- destruct (int tok); cbn [res_bind] in H; [| discriminate].
           eapply IH; [| exact H | apply Hacc']. cbn in *; lia.
        -- eapply IH; [| exact H | apply Hacc']. cbn in *; lia.
Qed.

Lemma read_access_spec_loop_well_formed :
  forall (fuel : nat) (toks : list string)
         (acc specs : list ReadAccessSpecification),
    Read.read_access_spec_loop env fuel toks acc = Some (Return specs) ->
    Forall (well_formed_spec env) acc ->
    Forall (well_formed_spec env) specs.
Proof.
  induction fuel as [| fuel IH]; intros toks acc specs H Hacc.
  - destruct toks; [| discriminate]. cbn in H. now injection H as <-.
  - destruct toks as [| obj_type rest].
    + cbn in H. now injection H as <-.
    + cbn [Read.read_access_spec_loop] in H.
      destruct (Read.rp_obj_type env obj_type) as [ot | e]; [| discriminate].
      destruct rest as [| obj_inst rest']; [discriminate |].
      destruct (int obj_inst) as [oi | e]; [| discriminate].
      destruct (Read.prop_reference_loop env ot rest' [])
        as [[refs remaining] | e] eqn:Hloop; [| discriminate].
      destruct refs as [| r refs]; [discriminate |].
      apply (IH _ _ _ H). apply Forall_app. split; [exact Hacc |].
      constructor; [| constructor]. split; [discriminate |]. cbn.
      exact (prop_reference_loop_accepted ot _ _ _ _ _ (le_n _) Hloop
               (Forall_nil _)).
Qed.

(** X8.  Every request that [build_rpm_request] builds holds at least one
    read access specification, and each specification holds at least one
    property reference; every reference names a key of the property
    enumeration and is a wildcard or a property whose datatype resolves for
    the specification's object type. *)
Theorem rpm_request_well_formed :
  forall (args : list string) (request : ReadPropertyMultipleRequest),
    Read.rpm_request env args = Return request ->
    rpm_listOfReadAccessSpecs request <> []
    /\ Forall (well_formed_spec env) (rpm_listOfReadAccessSpecs request).
Proof.
  intros args request H. unfold Read.rpm_request in H.
  destruct args as [| addr rest]; [discriminate |].
  destruct (Read.read_access_spec_loop env (List.length rest) rest [])
    as [[specs | e] |] eqn:Hloop; try discriminate.
  destruct specs as [| s specs]; [discriminate |].
  destruct (Address env addr); cbn in H; [| discriminate].
  injection H as <-. cbn. split; [discriminate |].
  exact (read_access_spec_loop_well_formed _ _ _ _ Hloop (Forall_nil _)).
Qed.

(** X9.  What [build_rpm_request] refuses: a command without tokens
    (IndexError), a command that is an address only (RuntimeError), an object
    type that is the last token (IndexError), and an object whose instance is
    followed by no property name (ValueError). *)
Theorem rpm_request_refusals :
  forall (addr obj_type obj_inst : string) (rest : list string)
         (ot : Ident) (oi : Z),
    Read.rp_obj_type env obj_type = Return ot ->
    int obj_inst = Return oi ->
    match rest with
    | [] => True
    | tok :: _ =>
        Read.in_enumerations tok (PropertyIdentifier_enumerations env) = false
    end ->
    Read.rpm_request env [] = Raise (IndexError "list index out of range")
    /\ Read.rpm_request env [addr]
       = Raise (RuntimeError "at least one read access specification required")
    /\ Read.rpm_request env [addr; obj_type]
       = Raise (IndexError "list index out of range")
    /\ Read.rpm_request env (addr :: obj_type :: obj_inst :: rest)
       = Raise (ValueError "provide at least one property").
Proof.
  intros addr obj_type obj_inst rest ot oi Hot Hoi Hrest.
  split; [reflexivity |]. split; [reflexivity |]. split.
  - unfold Read.rpm_request. cbn. now rewrite Hot.
  - unfold Read.rpm_request.
    cbn [List.length Read.read_access_spec_loop]. rewrite Hot, Hoi.
    destruct rest as [| tok rest]; [reflexivity |].
    cbn [Read.prop_reference_loop]. rewrite Hrest. reflexivity.
Qed.

End RpmRequest.

Lemma rpm_request_well_formed_witness :
  rpm_listOfReadAccessSpecs
    {| rpm_listOfReadAccessSpecs :=
         [ {| ras_objectIdentifier := (Name "analogInput", 1);
              ras_listOfPropertyReferences :=
                [ {| pr_propertyIdentifier := "presentValue";
                     pr_propertyArrayIndex := Some 3 |};
                  {| pr_propertyIdentifier := "units";
                     pr_propertyArrayIndex := None |} ] |};
           {| ras_objectIdentifier := (Name "device", 1);
              ras_listOfPropertyReferences :=
                [ {| pr_propertyIdentifier := "all";
                     pr_propertyArrayIndex := None |} ] |} ];
       rpm_pduDestination := "2:5" |} <> []
  /\ Forall (well_formed_spec Sample.env)
       [ {| ras_objectIdentifier := (Name "analogInput", 1);
            ras_listOfPropertyReferences :=
              [ {| pr_propertyIdentifier := "presentValue";
                   pr_propertyArrayIndex := Some 3 |};
                {| pr_propertyIdentifier := "units";
                   pr_propertyArrayIndex := None |} ] |};
         {| ras_objectIdentifier := (Name "device", 1);
            ras_listOfPropertyReferences :=
              [ {| pr_propertyIdentifier := "all";
                   pr_propertyArrayIndex := None |} ] |} ].
Proof.
  exact (rpm_request_well_formed Sample.env
           (split "2:5 analogInput 1 presentValue 3 units device 1 all")
           _ eq_refl).
Defined.

Lemma rpm_request_refusals_witness :
  Read.rpm_request Sample.env [] = Raise (IndexError "list index out of range")
  /\ Read.rpm_request Sample.env ["2:5"]
     = Raise (RuntimeError "at least one read access specification required")
  /\ Read.rpm_request Sample.env ["2:5"; "analogInput"]
     = Raise (IndexError "list index out of range")
  /\ Read.rpm_request Sample.env ["2:5"; "analogInput"; "1"; "temperature"]
     = Raise (ValueError "provide at least one property").
Proof.
  exact (rpm_request_refusals Sample.env "2:5" "analogInput" "1"
           ["temperature"] (Name "analogInput") 1 eq_refl eq_refl eq_refl).
Defined.

(** *** [build_rp_request]: the index rule and the refusals *)

Section RpRequest.

Context (env : Env).

(** X10.  In a request that [build_rp_request] builds, a fifth token is the
    array index and the [arr_index] argument is ignored; a command of any
    other length takes [arr_index] as it is.  Object, property and address
    never depend on [arr_index]. *)
Theorem rp_request_index_rule :
  forall (args : list string) (arr_index : option Z) (vendor_id : Z)
         (request : ReadPropertyRequest),
    Read.rp_request env args arr_index vendor_id = Return request ->
    (List.length args = 5%nat ->
     (exists i, int (List.nth 4%nat args "") = Return i
                /\ rp_propertyArrayIndex request = Some i)
     /\ forall other,
         Read.rp_request env args other vendor_id = Return request)
    /\ (List.length args <> 5%nat ->
        rp_propertyArrayIndex request = arr_index
        /\ forall other,
            Read.rp_request env args other vendor_id
            = Return (with_index request other)).
Proof.
  intros args arr_index vendor_id request H.
  unfold Read.rp_request in *.
  destruct args as [| addr [| obj_type [| obj_inst [| prop_id rest]]]];
    try discriminate.
  destruct (Read.rp_obj_type env obj_type) as [ot | e]; [| discriminate].
  destruct (int obj_inst) as [oi | e]; [| discriminate].
  destruct (Read.prop_ident prop_id) as [pid | e]; [| discriminate].
  cbn [res_bind] in *.
  destruct (get_datatype env ot pid vendor_id); [| discriminate].
  destruct (Address env addr) as [dst | e]; [| discriminate].
  cbn [res_bind] in *.
  destruct (Nat.eqb_spec
              (List.length (addr :: obj_type :: obj_inst :: prop_id :: rest)) 5)
    as [Hlen | Hlen].
  - destruct (int (List.nth 4%nat (addr :: obj_type :: obj_inst :: prop_id :: rest) ""))
      as [i | e]; cbn in H; [| discriminate].
    injection H as <-. split; [| intros Hne; now elim Hne].
    intros _. split; [exists i; auto | reflexivity].
  - cbn in H. injection H as <-. split; [intros Heq; now elim Hlen |].
    intros _. split; reflexivity.
Qed.

(** X11.  What [build_rp_request] refuses, each with ValueError: fewer than
    four tokens; an object type that is neither all digits nor a name
    [get_object_class] knows; a property with no datatype for the object
    type. *)
Theorem rp_request_refusals :
  forall (arr_index : option Z) (vendor_id : Z),
    (forall args, (List.length args < 4)%nat ->
        Read.rp_request env args arr_index vendor_id
        = Raise (ValueError "not enough values to unpack (expected 4)"))
    /\ (forall addr obj_type obj_inst prop_id rest,
           isdigit obj_type = false ->
           get_object_class env obj_type = false ->
           Read.rp_request env (addr :: obj_type :: obj_inst :: prop_id :: rest)
                           arr_index vendor_id
           = Raise (ValueError "unknown object type"))
    /\ (forall addr obj_type obj_inst prop_id rest ot oi pid,
           Read.rp_obj_type env obj_type = Return ot ->
           int obj_inst = Return oi ->
           Read.prop_ident prop_id = Return pid ->
           get_datatype env ot pid vendor_id = None ->
           Read.rp_request env (addr :: obj_type :: obj_inst :: prop_id :: rest)
                           arr_index vendor_id
           = Raise (ValueError "invalid property for object type")).
Proof.
  intros arr_index vendor_id. repeat split.
  - intros args Hlen.
    destruct args as [| a [| b [| c [| d rest]]]]; try reflexivity.
    cbn in Hlen. lia.
  - intros addr obj_type obj_inst prop_id rest Hd Hc.
    unfold Read.rp_request, Read.rp_obj_type. now rewrite Hd, Hc.
  - intros addr obj_type obj_inst prop_id rest ot oi pid Hot Hoi Hpid Hdt.
    unfold Read.rp_request. rewrite Hot, Hoi, Hpid. cbn. now rewrite Hdt.
Qed.

End RpRequest.

Lemma rp_request_index_rule_witness :
  ((exists i, int "2" = Return i
              /\ rp_propertyArrayIndex (with_index Sample.objectList_request (Some 2))
                 = Some i)
   /\ forall other,
       Read.rp_request Sample.env (split "2:5 device 1 objectList 2") other 0
       = Return (with_index Sample.objectList_request (Some 2)))
  /\ (rp_propertyArrayIndex (with_index Sample.objectList_request (Some 7))
      = Some 7
      /\ forall other,
          Read.rp_request Sample.env (split "2:5 device 1 objectList") other 0
          = Return (with_index (with_index Sample.objectList_request (Some 7))
                               other)).
Proof.
  split.
  - destruct (rp_request_index_rule Sample.env
                (split "2:5 device 1 objectList 2") (Some 7) 0
                (with_index Sample.objectList_request (Some 2)) eq_refl)
      as [H _].
    exact (H eq_refl).
  - destruct (rp_request_index_rule Sample.env
                (split "2:5 device 1 objectList") (Some 7) 0
                (with_index Sample.objectList_request (Some 7)) eq_refl)
      as [_ H].
    apply H. intros Hx. vm_compute in Hx. discriminate Hx.
Defined.

Lemma rp_request_refusals_witness :
  Read.rp_request Sample.env (split "2:5 device 1") None 0
  = Raise (ValueError "not enough values to unpack (expected 4)")
  /\ Read.rp_request Sample.env (split "2:5 thermostat 1 presentValue") None 0
     = Raise (ValueError "unknown object type")
  /\ Read.rp_request Sample.env (split "2:5 device 1 presentValue") None 0
     = Raise (ValueError "invalid property for object type").
Proof.
  destruct (rp_request_refusals Sample.env None 0) as (H1 & H2 & H3).
  split; [| split].
  - apply H1. vm_compute. lia.
  - exact (H2 "2:5" "thermostat" "1" "presentValue" [] eq_refl eq_refl).
  - exact (H3 "2:5" "device" "1" "presentValue" [] (Name "device") 1
              (Name "presentValue") eq_refl eq_refl eq_refl eq_refl).
Defined.

(** *** What a call leaves of the world *)

Section Frames.

Context {D : Type} (P : Request -> Prop).

Lemma extends_refl (w : World D) : extends P w w.
Proof.
  split; [reflexivity |].
  split; exists []; rewrite app_nil_r; auto.
Qed.

Lemma extends_trans (w1 w2 w3 : World D) :
  extends P w1 w2 -> extends P w2 w3 -> extends P w1 w3.
Proof.
  intros (Hs1 & (l1 & Hl1 & HP1) & (g1 & Hg1))
         (Hs2 & (l2 & Hl2 & HP2) & (g2 & Hg2)).
  split; [congruence |]. split.
  - exists (l1 ++ l2)%list. rewrite Hl2, Hl1, <- app_assoc.
    split; [reflexivity | now apply Forall_app].
  - exists (g1 ++ g2)%list. now rewrite Hg2, Hg1, <- app_assoc.
Qed.

Lemma keeps_ret {A} (a : A) : keeps P (@ret D A a).
Proof. intros w. apply extends_refl. Qed.

Lemma keeps_raise {A} (e : Exc) : keeps P (@raise D A e).
Proof. intros w. apply extends_refl. Qed.

Lemma keeps_lift {A} (r : Res A) : keeps P (@lift D A r).
Proof. intros w. apply extends_refl. Qed.

Lemma keeps_started : keeps P (@started D).
Proof. intros w. apply extends_refl. Qed.

Lemma keeps_log_call (lvl : Level) (f : string) (a : list LogArg) :
  keeps P (@log_call D lvl f a).
Proof.
  intros w. split; [reflexivity |]. cbn. split.
  - exists []. rewrite app_nil_r. auto.
  - eexists. reflexivity.
Qed.

Lemma keeps_deferred (r : Request) : P r -> keeps P (@deferred_request_io D r).
Proof.
  intros Hr w. split; [reflexivity |]. cbn. split.
  - exists [r]. auto.
  - exists []. now rewrite app_nil_r.
Qed.

Lemma keeps_wait (gw : Gateway D) (r : Request) : keeps P (wait gw r).
Proof.
  intros w. unfold wait. destruct (request_io gw r (device w)) as [iocb d'].
  split; [reflexivity |]. cbn.
  split; exists []; rewrite app_nil_r; auto.
Qed.

Lemma keeps_bind {A B} (m : M D A) (k : A -> M D B) :
  keeps P m -> (forall a, keeps P (k a)) -> keeps P (bind m k).
Proof.
  intros Hm Hk w. unfold bind. specialize (Hm w).
  destruct (m w) as [[a | e] w1]; cbn in Hm |- *; [| exact Hm].
  eapply extends_trans; [exact Hm | apply Hk].
Qed.

End Frames.

Ltac keeps_step :=
  first
    [ apply keeps_ret | apply keeps_raise | apply keeps_lift
    | apply keeps_started | apply keeps_log_call | apply keeps_wait
    | apply keeps_bind; [| intros ]
    | match goal with
      | |- keeps _ (match ?c with _ => _ end) => destruct c
      end ].

Ltac keeps_all := cbv zeta; repeat keeps_step.

Section FramesOfCalls.

Context {D : Type} (env : Env) (gw : Gateway D).

Lemma keeps_bind_post {A B} (P : Request -> Prop) (m : M D A)
      (k : A -> M D B) :
  keeps P m ->
  (forall a, (exists w w', m w = (Return a, w')) -> keeps P (k a)) ->
  keeps P (bind m k).
Proof.
  intros Hm Hk w. unfold bind. specialize (Hm w).
  destruct (m w) as [[a | e] w1] eqn:Hmw; cbn in Hm |- *; [| exact Hm].
  eapply extends_trans; [exact Hm | apply Hk; eauto].
Qed.

Lemma keeps_build_rp_request (P : Request -> Prop) (args : list string)
      (arr_index : option Z) (vendor_id : Z) :
  keeps P (@Read.build_rp_request D env args arr_index vendor_id).
Proof. unfold Read.build_rp_request, log_debug. keeps_all. Qed.

Lemma build_rp_request_returns (args : list string) (arr_index : option Z)
      (vendor_id : Z) (request : ReadPropertyRequest) (w w' : World D) :
  Read.build_rp_request env args arr_index vendor_id w = (Return request, w') ->
  Read.rp_request env args arr_index vendor_id = Return request.
Proof.
  unfold Read.build_rp_request. run.
  destruct (Read.rp_request env args arr_index vendor_id); cbn;
    intros H; now inversion H.
Qed.

Lemma keeps_read_elements (P : Request -> Prop)
      (rd : string -> option Z -> Z -> M D Val) (args : string) :
  (forall i v, keeps P (rd args i v)) ->
  forall n i objlist, keeps P (Read.read_elements rd args i n objlist).
Proof.
  intros Hrd. induction n as [| n IH]; intros i objlist; cbn.
  - apply keeps_ret.
  - apply keeps_bind; [apply Hrd | intros; apply IH].
Qed.

Lemma keeps_split_with (P : Request -> Prop)
      (rd : string -> option Z -> Z -> M D Val) (args : string)
      (arr_index : option Z) :
  (forall i v, keeps P (rd args i v)) ->
  keeps P (Read.split_with rd args arr_index).
Proof.
  intros Hrd. unfold Read.split_with. cbv zeta.
  apply keeps_bind; [apply Hrd | intros].
  apply keeps_bind; [apply keeps_lift | intros].
  apply keeps_bind; [now apply keeps_read_elements | intros; apply keeps_ret].
Qed.

Lemma keeps_read_response (P : Request -> Prop)
      (rd : string -> option Z -> Z -> M D Val) (args : string)
      (arr_index : option Z) (vendor_id : Z) (iocb : IOCB) :
  (forall i v, keeps P (rd args i v)) ->
  keeps P (Read.read_response env rd args arr_index vendor_id iocb).
Proof.
  intros Hrd. unfold Read.read_response, log_debug, log_warning. cbv zeta.
  destruct (ioResponse iocb) as [apdu |].
  - destruct apdu; keeps_all.
  - destruct (ioError iocb) as [apdu |]; [| apply keeps_ret].
    apply keeps_bind; [apply keeps_lift | intros reason].
    destruct (Read.reason_is reason "segmentationNotSupported").
    + apply keeps_bind; [apply keeps_log_call | intros].
      apply keeps_bind; [apply keeps_log_call | intros].
      now apply keeps_split_with.
    + keeps_all.
Qed.

(** Two requests built from one command differ at most in the index. *)
Lemma rp_request_same_target (toks : list string) (a b : option Z) (v v' : Z)
      (r r' : ReadPropertyRequest) :
  Read.rp_request env toks a v = Return r ->
  Read.rp_request env toks b v' = Return r' ->
  own_request r' (RP r).
Proof.
  unfold Read.rp_request.
  destruct toks as [| addr [| obj_type [| obj_inst [| prop_id rest]]]];
    try discriminate.
  destruct (Read.rp_obj_type env obj_type) as [ot | e]; [| discriminate].
  destruct (int obj_inst) as [oi | e]; [| discriminate].
  destruct (Read.prop_ident prop_id) as [pid | e]; [| discriminate].
  cbn [res_bind].
  destruct (get_datatype env ot pid v); [| discriminate].
  destruct (get_datatype env ot pid v'); [| discriminate].
  destruct (Address env addr) as [dst | e]; [| discriminate].
  cbn [res_bind].
  destruct (Nat.eqb (List.length (addr :: obj_type :: obj_inst :: prop_id :: rest)) 5).
  - destruct (int (List.nth 4%nat (addr :: obj_type :: obj_inst :: prop_id :: rest) ""));
      cbn; [| discriminate].
    intros H H'. injection H as <-. injection H' as <-.
    eexists. reflexivity.
  - cbn. intros H H'. injection H as <-. injection H' as <-.
    exists a. reflexivity.
Qed.

(** X12.  Whatever the device answers and however deep the segmentation
    fallback nests, a [read] only ever sends ReadProperty requests for the
    object, the property and the address of its own command (they differ in
    the array index at most); it leaves the started flag alone and only adds
    to the log. *)
Theorem read_sends_only_own_requests :
  forall (args : string) (idx0 : option Z) (v0 : Z)
         (request0 : ReadPropertyRequest),
    Read.rp_request env (split args) idx0 v0 = Return request0 ->
    forall (depth : nat) (arr_index : option Z) (vendor_id : Z) (w : World D),
      extends (own_request request0) w
              (snd (Read.read env gw depth args arr_index vendor_id w)).
Proof.
  intros args idx0 v0 request0 Hr0.
  induction depth as [| depth IH]; intros arr_index vendor_id.
  - apply keeps_raise.
  - change (keeps (own_request request0)
                  (Read.read env gw (S depth) args arr_index vendor_id)).
    cbn [Read.read]. cbv zeta.
    apply keeps_bind; [apply keeps_started | intros is_started].
    destruct (negb is_started); [apply keeps_raise |].
    apply keeps_bind; [apply keeps_log_call | intros _].
    apply keeps_bind_post; [apply keeps_build_rp_request |].
    intros request (w0 & w0' & Hb). apply build_rp_request_returns in Hb.
    apply keeps_bind;
      [apply keeps_deferred; exact (rp_request_same_target _ _ _ _ _ _ _ Hb Hr0)
      | intros _].
    apply keeps_bind; [apply keeps_log_call | intros _].
    apply keeps_bind; [apply keeps_wait | intros iocb].
    apply keeps_read_response. intros i v w. apply IH.
Qed.

End FramesOfCalls.

Lemma read_sends_only_own_requests_witness :
  extends (own_request Sample.objectList_request) (Sample.world 0%nat)
          (snd (Read.read Sample.env Sample.unsegmented_flaky 3
                          "2:5 device 1 objectList" None 0
                          (Sample.world 0%nat))).
Proof.
  exact (read_sends_only_own_requests Sample.env Sample.unsegmented_flaky
           "2:5 device 1 objectList" None 0 Sample.objectList_request eq_refl
           3%nat None 0 (Sample.world 0%nat)).
Defined.

Section OneRequest.

Context {D : Type} (env : Env) (gw : Gateway D).

Lemma extends_nothing (w w' : World D) :
  extends nothing w w' -> sent w' = sent w.
Proof.
  intros (_ & (l & Hl & HP) & _). destruct l as [| r l].
  - now rewrite app_nil_r in Hl.
  - inversion HP as [| ? ? Hr]. elim Hr.
Qed.

Lemma keeps_listOfResults_loop (P : Request -> Prop) (objectIdentifier : ObjId)
      (elements : list ReadAccessResultElement) :
  forall values,
    keeps P (@Read.listOfResults_loop D env objectIdentifier elements values).
Proof.
  induction elements as [| element rest IH]; intros values;
    cbn [Read.listOfResults_loop]; cbv zeta; unfold log_debug, log_error.
  - apply keeps_ret.
  - apply keeps_bind; [apply keeps_log_call | intros _].
    apply keeps_bind; [apply keeps_log_call | intros _].
    apply keeps_bind;
      [destruct (el_propertyArrayIndex element);
       [apply keeps_log_call | apply keeps_ret] | intros _].
    destruct (el_readResult element).
    + keeps_all.
    + apply keeps_bind; [apply keeps_log_call | intros _]. apply IH.
Qed.

Lemma keeps_listOfReadAccessResults_loop (P : Request -> Prop)
      (results : list ReadAccessResult) :
  forall values,
    keeps P (@Read.listOfReadAccessResults_loop D env results values).
Proof.
  induction results as [| result rest IH]; intros values;
    cbn [Read.listOfReadAccessResults_loop]; cbv zeta; unfold log_debug.
  - apply keeps_ret.
  - apply keeps_bind; [apply keeps_log_call | intros _].
    apply keeps_bind; [apply keeps_listOfResults_loop | intros flow].
    destruct flow; [apply IH | apply keeps_ret].
Qed.

Lemma keeps_readMultiple_response (P : Request -> Prop) (args : list string)
      (values : list Val) (iocb : IOCB) :
  keeps P (@Read.readMultiple_response D env args values iocb).
Proof.
  unfold Read.readMultiple_response, log_debug, log_warning.
  apply keeps_bind.
  - destruct (ioResponse iocb) as [apdu |]; [| apply keeps_ret].
    destruct apdu; try (keeps_all; fail).
    apply keeps_listOfReadAccessResults_loop.
  - intros flow. keeps_all.
Qed.

Lemma keeps_build_wp_request (P : Request -> Prop) (args : list string)
      (vendor_id : Z) :
  keeps P (@Write.build_wp_request D env args vendor_id).
Proof. unfold Write.build_wp_request, log_debug. keeps_all. Qed.

(** X13.  A command that [build_rp_request] or [build_rpm_request] refuses
    makes the call raise the builder's exception as it is (the [except]
    clause of the call does not catch it), after one debug line and before
    anything is sent. *)
Theorem construction_error_is_raised_unsent :
  forall (w : World D),
    _started w = true ->
    (forall depth args arr_index vendor_id e,
        Read.rp_request env (split args) arr_index vendor_id = Raise e ->
        Read.read env gw (S depth) args arr_index vendor_id w
        = (Raise e, logged w [ debug "do_read %r" [ATokens (split args)] ]))
    /\ (forall args e,
           Read.rpm_request env (split args) = Raise e ->
           Read.readMultiple env gw args w
           = (Raise e,
              logged w [ debug "readMultiple %r" [ATokens (split args)] ])).
Proof.
  intros w Hs. split.
  - intros depth args arr_index vendor_id e Hr.
    cbn [Read.read]. unfold Read.build_rp_request. run.
    rewrite Hs, Hr. cbn. unfold logged. now rewrite Hs.
  - intros args e Hr.
    unfold Read.readMultiple, Read.build_rpm_request. run.
    rewrite Hs, Hr. cbn. unfold logged. now rewrite Hs.
Qed.

(** X14.  A [readMultiple] whose command builds sends exactly one request,
    the one built, whatever the device answers: no property is asked for a
    second time and no failure is retried. *)
Theorem readMultiple_sends_once :
  forall (args : string) (w : World D) (request : ReadPropertyMultipleRequest),
    _started w = true ->
    Read.rpm_request env (split args) = Return request ->
    sent (snd (Read.readMultiple env gw args w))
    = (sent w ++ [RPM request])%list.
Proof.
  intros args w request Hs Hr.
  destruct (request_io gw (RPM request) (device w)) as [iocb d'] eqn:Hio.
  rewrite (readMultiple_wakes _ _ _ _ _ _ _ Hs Hr Hio).
  rewrite (extends_nothing _ _
             (keeps_readMultiple_response nothing (split args) [] iocb
                (rpm_requested w args request d'))).
  reflexivity.
Qed.

Lemma write_wakes (args : string) (vendor_id : Z) (w w1 : World D)
      (request : WritePropertyRequest) (iocb : IOCB) (d' : D) :
  _started w = true ->
  Write.build_wp_request env (split args) vendor_id
    (logged w [ debug "do_write %r" [ATokens (split args)] ])
  = (Return request, w1) ->
  request_io gw (WP request) (device w1) = (iocb, d') ->
  Write.write env gw args vendor_id w
  = write_response iocb (write_requested w1 request d').
Proof.
  intros Hs Hb Hio. unfold Write.write. unfold bind at 1. unfold started.
  rewrite Hs. cbn [negb]. cbv zeta. unfold bind at 1.
  unfold log_debug at 1, log_call at 1. unfold bind at 1.
  unfold logged, debug in Hb. rewrite Hb.
  unfold bind at 1. unfold deferred_request_io at 1.
  unfold bind at 1. unfold wait at 1. cbn [device]. rewrite Hio.
  reflexivity.
Qed.

Lemma write_build_raises (args : string) (vendor_id : Z) (w w1 : World D)
      (e : Exc) :
  _started w = true ->
  Write.build_wp_request env (split args) vendor_id
    (logged w [ debug "do_write %r" [ATokens (split args)] ])
  = (Raise e, w1) ->
  Write.write env gw args vendor_id w = (Raise e, w1).
Proof.
  intros Hs Hb. unfold Write.write. unfold bind at 1. unfold started.
  rewrite Hs. cbn [negb]. cbv zeta. unfold bind at 1.
  unfold log_debug at 1, log_call at 1. unfold bind at 1.
  unfold logged, debug in Hb. rewrite Hb. reflexivity.
Qed.

Lemma keeps_write_response (P : Request -> Prop) (iocb : IOCB) :
  keeps P (@write_response D iocb).
Proof. unfold write_response, log_warning. keeps_all. Qed.

(** X15.  A [write] sends exactly one request when its command builds, the
    WriteProperty request built, and none when the builder raises; in that
    case the builder's exception leaves [write] as it is. *)
Theorem write_sends_once :
  forall (args : string) (vendor_id : Z) (w : World D),
    _started w = true ->
    let built :=
      Write.build_wp_request env (split args) vendor_id
        (logged w [ debug "do_write %r" [ATokens (split args)] ]) in
    match fst built with
    | Return request =>
        sent (snd (Write.write env gw args vendor_id w))
        = (sent w ++ [WP request])%list
    | Raise e =>
        Write.write env gw args vendor_id w = (Raise e, snd built)
        /\ sent (snd built) = sent w
    end.
Proof.
  intros args vendor_id w Hs built.
  pose proof (extends_nothing _ _
                (keeps_build_wp_request nothing (split args) vendor_id
                   (logged w [ debug "do_write %r" [ATokens (split args)] ])))
    as Hsent.
  fold built in Hsent. cbn [sent logged] in Hsent.
  destruct built as [[request | e] w1] eqn:Hb; cbn [fst snd] in *.
  - destruct (request_io gw (WP request) (device w1)) as [iocb d'] eqn:Hio.
    rewrite (write_wakes _ _ _ _ _ _ _ Hs Hb Hio).
    rewrite (extends_nothing _ _
               (keeps_write_response nothing iocb
                                     (write_requested w1 request d'))).
    cbn. now rewrite Hsent.
  - split; [now apply write_build_raises | exact Hsent].
Qed.

End OneRequest.

(** *** [write] and [readMultiple]: what the caller gets *)

Section Outcomes.

Context {D : Type} (env : Env) (gw : Gateway D).

(** X16.  Whenever [write] returns, it returns [None]: no status, neither
    [True] nor [False], ever reaches the caller, whatever the command and
    whatever the device answers. *)
Theorem write_returns_only_None :
  forall (args : string) (vendor_id : Z) (w : World D) (v : Val),
    fst (Write.write env gw args vendor_id w) = Return v -> v = VNone.
Proof.
  intros args vendor_id w v. unfold Write.write. run.
  destruct (_started w); cbn; [| discriminate].
  match goal with
  | |- context [Write.build_wp_request env ?a ?b ?c] =>
      destruct (Write.build_wp_request env a b c) as [[request | e] w1]
  end; cbn; [| discriminate].
  destruct (request_io gw (WP request) (device w1)) as [iocb d'].
  destruct (ioResponse iocb) as [[] |]; cbn;
    try (intros H; now inversion H);
    destruct (ioError iocb); cbn; try discriminate;
    intros H; now inversion H.
Qed.

(** X17.  Once the request is built and sent, [write] ends in one of three
    ways.  A success response that is not a SimpleAck gives [None] after a
    warning, even when the write has failed.  Otherwise a failure response
    raises NoResponseFromController, whatever its reason.  Otherwise (a
    SimpleAck, or no response at all) the call gives [None]. *)
Theorem write_outcomes :
  forall (args : string) (vendor_id : Z) (w w1 : World D)
         (request : WritePropertyRequest) (iocb : IOCB) (d' : D),
    _started w = true ->
    Write.build_wp_request env (split args) vendor_id
      (logged w [ debug "do_write %r" [ATokens (split args)] ])
    = (Return request, w1) ->
    request_io gw (WP request) (device w1) = (iocb, d') ->
    let result := fst (Write.write env gw args vendor_id w) in
    let log' := log (snd (Write.write env gw args vendor_id w)) in
    (forall apdu, ioResponse iocb = Some apdu -> apdu <> SimpleAckPDU ->
        result = Return VNone
        /\ log' = (log w1 ++ [ warning "- not an ack. Write has failed." [] ])%list)
    /\ (ioResponse iocb = None \/ ioResponse iocb = Some SimpleAckPDU ->
        (forall apdu, ioError iocb = Some apdu ->
            result = Raise (NoResponseFromController ""))
        /\ (ioError iocb = None -> result = Return VNone)).
Proof.
  intros args vendor_id w w1 request iocb d' Hs Hb Hio result log'.
  pose proof (write_wakes _ _ _ _ _ _ _ _ _ Hs Hb Hio) as Hw.
  unfold write_response, write_requested in Hw.
  subst result log'. rewrite Hw. split.
  - intros apdu Ha Hna. rewrite Ha.
    destruct apdu; try (now elim Hna); split; reflexivity.
  - intros Hr. split.
    + intros apdu He.
      destruct Hr as [-> | ->]; run; now rewrite He.
    + intros He.
      destruct Hr as [-> | ->]; run; now rewrite He.
Qed.

(** X18.  A [readMultiple] that is answered by a failure response raises
    what [find_reason] raises; raises UnrecognizedService for the reason
    unrecognizedService and SegmentationNotSupported for
    segmentationNotSupported (there is no fallback by index here); and for
    every other reason, unknownProperty included, returns the one-element
    list that holds the empty string. *)
Theorem readMultiple_failure_outcomes :
  forall (args : string) (w : World D) (request : ReadPropertyMultipleRequest)
         (apdu : ErrPDU) (d' : D),
    _started w = true ->
    Read.rpm_request env (split args) = Return request ->
    request_io gw (RPM request) (device w)
    = ({| ioResponse := None; ioError := Some apdu |}, d') ->
    let result := fst (Read.readMultiple env gw args w) in
    (forall e, Read.find_reason env apdu = Raise e -> result = Raise e)
    /\ (forall reason, Read.find_reason env apdu = Return reason ->
          (Read.reason_is reason "unrecognizedService" = true ->
           result = Raise UnrecognizedService)
          /\ (Read.reason_is reason "segmentationNotSupported" = true ->
              result = Raise SegmentationNotSupported)
          /\ (Read.reason_is reason "unrecognizedService" = false ->
              Read.reason_is reason "segmentationNotSupported" = false ->
              result = Return (VList [VStr ""]))).
Proof.
  intros args w request apdu d' Hs Hr Hio result. subst result.
  rewrite (readMultiple_wakes _ _ _ _ _ _ _ Hs Hr Hio).
  unfold Read.readMultiple_response. run. split.
  - intros e He. now rewrite He.
  - intros reason He. rewrite He. cbn. repeat split.
    + intros H. now rewrite H.
    + intros H. pose proof (reason_is_eq _ _ H) as ->. reflexivity.
    + intros H1 H2. rewrite H1, H2.
      destruct (Read.reason_is reason "unknownProperty"); reflexivity.
Qed.

(** X19.  A ReadPropertyACK, or the first value of a
    ReadPropertyMultipleACK, whose object type and property have no datatype
    in the registry makes the call raise TypeError; the value is not
    decoded. *)
Theorem unknown_datatype_raises :
  forall (w : World D),
    _started w = true ->
    (forall depth args arr_index vendor_id request objectIdentifier
            propertyIdentifier propertyArrayIndex propertyValue ioError d',
        Read.rp_request env (split args) arr_index vendor_id = Return request ->
        request_io gw (RP request) (device w)
        = ({| ioResponse := Some (ReadPropertyACK objectIdentifier
                                    propertyIdentifier propertyArrayIndex
                                    propertyValue);
              ioError := ioError |}, d') ->
        get_datatype env (fst objectIdentifier) propertyIdentifier vendor_id
        = None ->
        fst (Read.read env gw (S depth) args arr_index vendor_id w)
        = Raise (TypeError "unknown datatype"))
    /\ (forall args request objectIdentifier element elements results
               propertyValue ioError d',
           Read.rpm_request env (split args) = Return request ->
           request_io gw (RPM request) (device w)
           = ({| ioResponse :=
                   Some (ReadPropertyMultipleACK
                           ({| rar_objectIdentifier := objectIdentifier;
                               rar_listOfResults := element :: elements |}
                              :: results));
                 ioError := ioError |}, d') ->
           el_readResult element = ResultValue propertyValue ->
           get_datatype env (fst objectIdentifier)
                        (el_propertyIdentifier element) 0 = None ->
           fst (Read.readMultiple env gw args w)
           = Raise (TypeError "unknown datatype")).
Proof.
  intros w Hs. split.
  - intros depth args arr_index vendor_id request oid pid idx pv ioe d'
           Hr Hio Hd.
    rewrite (read_wakes _ _ _ _ _ _ _ _ _ _ Hs Hr Hio).
    unfold Read.read_response. run. now rewrite Hd.
  - intros args request oid element elements results pv ioe d' Hr Hio He Hd.
    rewrite (readMultiple_wakes _ _ _ _ _ _ _ Hs Hr Hio).
    unfold Read.readMultiple_response. run. rewrite He.
    destruct (el_propertyArrayIndex element); cbn; now rewrite Hd.
Qed.

(** X20.  A single read that is answered by a failure whose reason is not
    segmentationNotSupported raises NoResponseFromController with the reason
    in its message, after exactly one request; no value is returned and no
    second request is tried. *)
Theorem read_failure_raises :
  forall (depth : nat) (args : string) (arr_index : option Z) (vendor_id : Z)
         (w : World D) (request : ReadPropertyRequest) (d' : D)
         (apdu : ErrPDU) (reason : Reason),
    _started w = true ->
    Read.rp_request env (split args) arr_index vendor_id = Return request ->
    request_io gw (RP request) (device w)
    = ({| ioResponse := None; ioError := Some apdu |}, d') ->
    Read.find_reason env apdu = Return reason ->
    Read.reason_is reason "segmentationNotSupported" = false ->
    fst (Read.read env gw (S depth) args arr_index vendor_id w)
    = Raise (NoResponseFromController
               ("APDU Abort Reason : " ++ Read.reason_str reason))
    /\ sent (snd (Read.read env gw (S depth) args arr_index vendor_id w))
       = (sent w ++ [RP request])%list.
Proof.
  intros depth args arr_index vendor_id w request d' apdu reason
         Hs Hr Hio Hf Hseg.
  rewrite (read_wakes _ _ _ _ _ _ _ _ _ _ Hs Hr Hio).
  rewrite (read_response_other_failure _ _ _ _ _ _ _ _ Hf Hseg).
  split; [reflexivity |].
  destruct (Read.reason_is reason "unknownProperty"); reflexivity.
Qed.

(** X21.  When the segmentation fallback asks for the element count and the
    device answers with a success response that is not a ReadPropertyACK,
    that read gives [None], and the fallback raises the TypeError of
    [None + 1] instead of a list or a NoResponseFromController. *)
Theorem fallback_count_not_acknowledged :
  forall (depth : nat) (args : string) (arr_index : option Z) (vendor_id : Z)
         (w : World D) (request request0 : ReadPropertyRequest) (d1 d2 : D)
         (apdu : ErrPDU) (reason : Reason) (answer : APDU)
         (ioError : option ErrPDU),
    _started w = true ->
    Read.rp_request env (split args) arr_index vendor_id = Return request ->
    request_io gw (RP request) (device w)
    = ({| ioResponse := None; ioError := Some apdu |}, d1) ->
    Read.find_reason env apdu = Return reason ->
    Read.reason_is reason "segmentationNotSupported" = true ->
    Read.rp_request env (split args) None 0 = Return request0 ->
    rp_propertyArrayIndex request0 = None ->
    request_io gw (RP (at_index request0 0)) d1
    = ({| ioResponse := Some answer; ioError := ioError |}, d2) ->
    is_ReadPropertyACK answer = false ->
    fst (Read.read env gw (S (S depth)) args arr_index vendor_id w)
    = Raise (TypeError
               "unsupported operand type(s) for +: 'NoneType' and 'int'").
Proof.
  intros depth args arr_index vendor_id w request request0 d1 d2 apdu reason
         answer ioe Hs Hr Hio Hf Hseg Hr0 Hnone Hio0 Hna.
  rewrite (read_wakes _ _ _ _ _ _ _ _ _ _ Hs Hr Hio).
  rewrite (read_response_segmentation _ _ _ _ _ _ _ _ _ Hf Hseg).
  unfold Read._split_the_read_request, Read.split_with.
  set (w1 := logged _ _).
  assert (Hs1 : _started w1 = true) by exact Hs.
  assert (Hd1 : request_io gw (RP (at_index request0 0)) (device w1)
                = ({| ioResponse := Some answer; ioError := ioe |}, d2))
    by exact Hio0.
  unfold bind at 1.
  rewrite (read_wakes _ _ _ _ _ _ _ _ _ _ Hs1
             (rp_request_at_index _ _ _ 0 Hr0 Hnone) Hd1).
  unfold Read.read_response. cbn [ioResponse].
  destruct answer; try discriminate; reflexivity.
Qed.

End Outcomes.

Lemma construction_error_is_raised_unsent_witness :
  Read.read Sample.env Sample.unsegmented 1 "2:5 thermostat 1 presentValue"
            None 0 (Sample.world tt)
  = (Raise (ValueError "unknown object type"),
     logged (Sample.world tt)
            [ debug "do_read %r"
                    [ATokens (split "2:5 thermostat 1 presentValue")] ])
  /\ Read.readMultiple Sample.env Sample.unsegmented "2:5" (Sample.world tt)
     = (Raise (RuntimeError "at least one read access specification required"),
        logged (Sample.world tt)
               [ debug "readMultiple %r" [ATokens (split "2:5")] ]).
Proof.
  destruct (construction_error_is_raised_unsent Sample.env Sample.unsegmented
              (Sample.world tt) eq_refl) as [Hread Hrpm].
  split.
  - exact (Hread 0%nat "2:5 thermostat 1 presentValue" None 0 _ eq_refl).
  - exact (Hrpm "2:5" _ eq_refl).
Defined.

Lemma readMultiple_sends_once_witness :
  sent (snd (Read.readMultiple Sample.env
               (Sample.always (Sample.success Sample.ai1_value_units))
               "2:5 analogInput 1 presentValue units" (Sample.world tt)))
  = [ RPM Sample.ai1_rpm_request ].
Proof.
  exact (readMultiple_sends_once Sample.env
           (Sample.always (Sample.success Sample.ai1_value_units))
           "2:5 analogInput 1 presentValue units" (Sample.world tt)
           Sample.ai1_rpm_request eq_refl eq_refl).
Defined.

Lemma write_sends_once_witness :
  sent (snd (Write.write Sample.env (Sample.always (Sample.success SimpleAckPDU))
                         "2:5 analogValue 1 presentValue 72.5" 0
                         (Sample.world tt)))
  = [ WP Sample.av1_wp_request ]
  /\ sent (snd (Write.write Sample.env
                  (Sample.always (Sample.success SimpleAckPDU))
                  "2:5 analogValue 1 presentValue warm" 0 (Sample.world tt)))
     = [].
Proof.
  split.
  - exact (write_sends_once Sample.env
             (Sample.always (Sample.success SimpleAckPDU))
             "2:5 analogValue 1 presentValue 72.5" 0 (Sample.world tt) eq_refl).
  - destruct (write_sends_once Sample.env
                (Sample.always (Sample.success SimpleAckPDU))
                "2:5 analogValue 1 presentValue warm" 0 (Sample.world tt)
                eq_refl) as [Hw Hsent].
    rewrite Hw. exact Hsent.
Defined.

Lemma write_returns_only_None_witness : VNone = VNone.
Proof.
  exact (write_returns_only_None Sample.env
           (Sample.always (Sample.success SimpleAckPDU))
           "2:5 analogValue 1 presentValue 72.5" 0 (Sample.world tt) VNone
           eq_refl).
Defined.

Lemma write_outcomes_witness :
  fst (Write.write Sample.env (Sample.always (Sample.success (OtherPDU "ComplexAckPDU")))
                   "2:5 analogValue 1 presentValue 72.5" 0 (Sample.world tt))
  = Return VNone
  /\ fst (Write.write Sample.env (Sample.always (Sample.failure (AbortPDU 65)))
                      "2:5 analogValue 1 presentValue 72.5" 0 (Sample.world tt))
     = Raise (NoResponseFromController "")
  /\ fst (Write.write Sample.env (Sample.always (Sample.success SimpleAckPDU))
                      "2:5 analogValue 1 presentValue 72.5" 0 (Sample.world tt))
     = Return VNone.
Proof.
  split; [| split].
  - destruct (write_outcomes Sample.env
                (Sample.always (Sample.success (OtherPDU "ComplexAckPDU")))
                "2:5 analogValue 1 presentValue 72.5" 0 (Sample.world tt)
                _ _ _ tt eq_refl eq_refl eq_refl) as [H _].
    destruct (H (OtherPDU "ComplexAckPDU") eq_refl ltac:(discriminate))
      as [Hres _].
    exact Hres.
  - destruct (write_outcomes Sample.env
                (Sample.always (Sample.failure (AbortPDU 65)))
                "2:5 analogValue 1 presentValue 72.5" 0 (Sample.world tt)
                _ _ _ tt eq_refl eq_refl eq_refl) as [_ H].
    destruct (H (or_introl eq_refl)) as [Hraise _].
    exact (Hraise (AbortPDU 65) eq_refl).
  - destruct (write_outcomes Sample.env
                (Sample.always (Sample.success SimpleAckPDU))
                "2:5 analogValue 1 presentValue 72.5" 0 (Sample.world tt)
                _ _ _ tt eq_refl eq_refl eq_refl) as [_ H].
    destruct (H (or_intror eq_refl)) as [_ Hnone].
    exact (Hnone eq_refl).
Defined.

Lemma readMultiple_failure_outcomes_witness :
  fst (Read.readMultiple Sample.env (Sample.always (Sample.failure (RejectPDU 9)))
                         "2:5 analogInput 1 presentValue units" (Sample.world tt))
  = Raise UnrecognizedService
  /\ fst (Read.readMultiple Sample.env
            (Sample.always (Sample.failure (AbortPDU 4)))
            "2:5 analogInput 1 presentValue units" (Sample.world tt))
     = Raise SegmentationNotSupported
  /\ fst (Read.readMultiple Sample.env
            (Sample.always (Sample.failure Sample.unknown_property))
            "2:5 analogInput 1 presentValue units" (Sample.world tt))
     = Return (VList [VStr ""])
  /\ fst (Read.readMultiple Sample.env
            (Sample.always (Sample.failure (ErrorPDU None None)))
            "2:5 analogInput 1 presentValue units" (Sample.world tt))
     = Raise (NameError "self").
Proof.
  split; [| split; [| split]].
  - destruct (readMultiple_failure_outcomes Sample.env
                (Sample.always (Sample.failure (RejectPDU 9)))
                "2:5 analogInput 1 presentValue units" (Sample.world tt)
                Sample.ai1_rpm_request (RejectPDU 9) tt
                eq_refl eq_refl eq_refl) as [_ H].
    destruct (H (ReasonName "unrecognizedService") eq_refl) as (H1 & _).
    exact (H1 eq_refl).
  - destruct (readMultiple_failure_outcomes Sample.env
                (Sample.always (Sample.failure (AbortPDU 4)))
                "2:5 analogInput 1 presentValue units" (Sample.world tt)
                Sample.ai1_rpm_request (AbortPDU 4) tt
                eq_refl eq_refl eq_refl) as [_ H].
    destruct (H (ReasonName "segmentationNotSupported") eq_refl) as (_ & H2 & _).
    exact (H2 eq_refl).
  - destruct (readMultiple_failure_outcomes Sample.env
                (Sample.always (Sample.failure Sample.unknown_property))
                "2:5 analogInput 1 presentValue units" (Sample.world tt)
                Sample.ai1_rpm_request Sample.unknown_property tt
                eq_refl eq_refl eq_refl) as [_ H].
    destruct (H (ReasonName "unknownProperty") eq_refl) as (_ & _ & H3).
    exact (H3 eq_refl eq_refl).
  - destruct (readMultiple_failure_outcomes Sample.env
                (Sample.always (Sample.failure (ErrorPDU None None)))
                "2:5 analogInput 1 presentValue units" (Sample.world tt)
                Sample.ai1_rpm_request (ErrorPDU None None) tt
                eq_refl eq_refl eq_refl) as [H _].
    exact (H (NameError "self") eq_refl).
Defined.

Lemma unknown_datatype_raises_witness :
  fst (Read.read Sample.env
         (Sample.always (Sample.success Sample.device_presentValue_ack)) 1
         "2:5 device 1 objectName" None 0 (Sample.world tt))
  = Raise (TypeError "unknown datatype")
  /\ fst (Read.readMultiple Sample.env
            (Sample.always (Sample.success Sample.device_presentValue_rpm_ack))
            "2:5 analogInput 1 presentValue units" (Sample.world tt))
     = Raise (TypeError "unknown datatype").
Proof.
  destruct (unknown_datatype_raises Sample.env
              (Sample.always (Sample.success Sample.device_presentValue_ack))
              (Sample.world tt) eq_refl) as [Hread _].
  destruct (unknown_datatype_raises Sample.env
              (Sample.always (Sample.success Sample.device_presentValue_rpm_ack))
              (Sample.world tt) eq_refl) as [_ Hrpm].
  split.
  - exact (Hread 0%nat "2:5 device 1 objectName" None 0
                 {| rp_objectIdentifier := (Name "device", 1);
                    rp_propertyIdentifier := Name "objectName";
                    rp_propertyArrayIndex := None;
                    rp_pduDestination := "2:5" |}
                 (Name "device", 1) (Name "presentValue") None
                 (Sample.tagged Real Sample.seventy_two_and_a_half) None tt
                 eq_refl eq_refl eq_refl).
  - exact (Hrpm "2:5 analogInput 1 presentValue units" Sample.ai1_rpm_request
                (Name "device", 1)
                (Sample.element "presentValue"
                   (ResultValue (Sample.tagged Real Sample.seventy_two_and_a_half)))
                [] [] (Sample.tagged Real Sample.seventy_two_and_a_half) None tt
                eq_refl eq_refl eq_refl eq_refl).
Defined.

Lemma read_failure_raises_witness :
  fst (Read.read Sample.env (Sample.always (Sample.failure (AbortPDU 65))) 1
                 "2:5 device 1 objectList" None 0 (Sample.world tt))
  = Raise (NoResponseFromController "APDU Abort Reason : noResponse")
  /\ sent (snd (Read.read Sample.env
                  (Sample.always (Sample.failure (AbortPDU 65))) 1
                  "2:5 device 1 objectList" None 0 (Sample.world tt)))
     = [ RP Sample.objectList_request ].
Proof.
  exact (read_failure_raises Sample.env
           (Sample.always (Sample.failure (AbortPDU 65))) 0
           "2:5 device 1 objectList" None 0 (Sample.world tt)
           Sample.objectList_request tt (AbortPDU 65) (ReasonName "noResponse")
           eq_refl eq_refl eq_refl eq_refl eq_refl).
Defined.

Lemma fallback_count_not_acknowledged_witness :
  fst (Read.read Sample.env Sample.unsegmented_simple_ack 2
                 "2:5 device 1 objectList" None 0 (Sample.world tt))
  = Raise (TypeError "unsupported operand type(s) for +: 'NoneType' and 'int'").
Proof.
  exact (fallback_count_not_acknowledged Sample.env
           Sample.unsegmented_simple_ack 0 "2:5 device 1 objectList" None 0
           (Sample.world tt) Sample.objectList_request
           Sample.objectList_request tt tt (AbortPDU 4)
           (ReasonName "segmentationNotSupported") SimpleAckPDU None
           eq_refl eq_refl eq_refl eq_refl eq_refl eq_refl eq_refl eq_refl
           eq_refl).
Defined.

(** *** Tokens that are numbers *)

Lemma is_digit_not_space (c : ascii) : is_digit c = true -> is_space c = false.
Proof.
  unfold is_digit, is_space. cbv zeta.
  set (n := Z.of_nat (nat_of_ascii c)).
  intros H. apply andb_true_iff in H as [H1 H2].
  apply Z.leb_le in H1. apply Z.leb_le in H2. clearbody n.
  apply orb_false_iff. split; apply andb_false_iff.
  - right. apply Z.leb_gt. lia.
  - right. apply Z.leb_gt. lia.
Qed.

Lemma rstrip_opt_digits (s : string) :
  s <> EmptyString -> all_digits s = true -> rstrip_opt s = Some s.
Proof.
  induction s as [| c rest IH]; intros Hne Hd; [now elim Hne |].
  cbn in Hd. apply andb_true_iff in Hd as [Hc Hrest].
  cbn [rstrip_opt]. destruct rest as [| c' rest'].
  - cbn. now rewrite (is_digit_not_space _ Hc).
  - rewrite IH; [reflexivity | discriminate | exact Hrest].
Qed.

Lemma strip_digits (s : string) : isdigit s = true -> strip s = s.
Proof.
  intros H. destruct s as [| c rest]; [discriminate |].
  assert (Hall : all_digits (String c rest) = true) by exact H.
  cbn in H. apply andb_true_iff in H as [Hc _].
  unfold strip. cbn [lstrip]. rewrite (is_digit_not_space _ Hc).
  rewrite rstrip_opt_digits; [reflexivity | discriminate | exact Hall].
Qed.

Lemma int_digits_all_digits (s : string) :
  forall (st : IntLex) (acc : Z),
    all_digits s = true -> 0 <= acc ->
    s <> EmptyString \/ st = AfterDigit ->
    exists z, int_digits st acc s = Some z /\ 0 <= z.
Proof.
  induction s as [| c rest IH]; intros st acc Hd Hacc Hst.
  - destruct Hst as [Hne | ->]; [now elim Hne |]. exists acc. auto.
  - cbn in Hd. apply andb_true_iff in Hd as [Hc Hrest].
    cbn [int_digits]. rewrite Hc.
    apply IH; [exact Hrest | | now right].
    unfold is_digit in Hc. cbv zeta in Hc.
    apply andb_true_iff in Hc as [H1 _]. apply Z.leb_le in H1.
    unfold digit_val. lia.
Qed.

Lemma count_digits_all_digits (s : string) :
  all_digits s = true -> count_digits s = Z.of_nat (String.length s).
Proof.
  induction s as [| c rest IH]; intros Hd; [reflexivity |].
  cbn in Hd. apply andb_true_iff in Hd as [Hc Hrest].
  cbn [count_digits String.length]. rewrite Hc, (IH Hrest). lia.
Qed.

Lemma parse_int_digits (tok : string) :
  isdigit tok = true -> exists z, parse_int tok = Some z /\ 0 <= z.
Proof.
  intros H. unfold parse_int. rewrite (strip_digits _ H).
  destruct tok as [| c rest]; [discriminate |].
  assert (Hall : all_digits (String c rest) = true) by exact H.
  assert (Hne : String c rest <> EmptyString \/ AtStart = AfterDigit)
    by (left; discriminate).
  destruct (int_digits_all_digits (String c rest) AtStart 0 Hall (Z.le_refl 0) Hne)
    as (z & Hz & Hpos).
  exists z. split; [| exact Hpos].
  cbn in H. apply andb_true_iff in H as [Hc _].
  destruct c as [[] [] [] [] [] [] [] []]; vm_compute in Hc; try discriminate Hc;
    cbv iota; exact Hz.
Qed.

Lemma isdigit_all_digits (tok : string) :
  isdigit tok = true -> all_digits tok = true.
Proof. destruct tok; [discriminate | exact (fun H => H)]. Qed.

Lemma int_of_digits (tok : string) :
  isdigit tok = true ->
  Z.of_nat (String.length tok) <= int_max_str_digits ->
  exists z, int tok = Return z /\ 0 <= z.
Proof.
  intros H Hlen. destruct (parse_int_digits tok H) as (z & Hz & Hpos).
  exists z. split; [| exact Hpos]. unfold int. rewrite Hz.
  rewrite (count_digits_all_digits _ (isdigit_all_digits _ H)).
  apply Z.leb_le in Hlen. now rewrite Hlen.
Qed.

Lemma int_of_too_many_digits (tok : string) :
  isdigit tok = true ->
  int_max_str_digits < Z.of_nat (String.length tok) ->
  exists msg, int tok = Raise (ValueError msg).
Proof.
  intros H Hlen. destruct (parse_int_digits tok H) as (z & Hz & _).
  unfold int. rewrite Hz.
  rewrite (count_digits_all_digits _ (isdigit_all_digits _ H)).
  apply Z.leb_gt in Hlen. rewrite Hlen. eexists. reflexivity.
Qed.

(** X22.  An object type or property token made of digits only is always
    read as a number and [get_object_class] is not asked about it.  With at
    most 4300 digits (the interpreter's limit for [int] on a string) the
    number is the token's value, which is not negative; with more digits
    [int] raises [ValueError] and so does the builder.  This holds in the
    builders of read requests and of write requests alike. *)
Theorem digit_token_becomes_number :
  forall (env : Env) (tok : string),
    isdigit tok = true ->
    (Z.of_nat (String.length tok) <= int_max_str_digits ->
     exists z,
       0 <= z
       /\ int tok = Return z
       /\ Read.rp_obj_type env tok = Return (Num z)
       /\ Read.prop_ident tok = Return (Num z)
       /\ Write.wp_ident tok = Return (Num z))
    /\ (int_max_str_digits < Z.of_nat (String.length tok) ->
        exists msg,
          Read.rp_obj_type env tok = Raise (ValueError msg)
          /\ Read.prop_ident tok = Raise (ValueError msg)
          /\ Write.wp_ident tok = Raise (ValueError msg)).
Proof.
  intros env tok H. split; intros Hlen.
  - destruct (int_of_digits tok H Hlen) as (z & Hz & Hpos).
    exists z. unfold Read.rp_obj_type, Read.prop_ident, Write.wp_ident.
    rewrite H, Hz. cbn. auto.
  - destruct (int_of_too_many_digits tok H Hlen) as (msg & Hz).
    exists msg. unfold Read.rp_obj_type, Read.prop_ident, Write.wp_ident.
    rewrite H, Hz. cbn. auto.
Qed.

Lemma digit_token_becomes_number_witness :
  exists z,
    0 <= z
    /\ int "0085" = Return z
    /\ Read.rp_obj_type Sample.env "0085" = Return (Num z)
    /\ Read.prop_ident "0085" = Return (Num z)
    /\ Write.wp_ident "0085" = Return (Num z).
Proof.
  apply (proj1 (digit_token_becomes_number Sample.env "0085" eq_refl)).
  vm_compute. discriminate.
Defined.

(** *** [build_wp_request]: what goes into the request *)

Ltac crack_cases :=
  repeat match goal with
         | |- context [match ?c with _ => _ end] =>
             lazymatch c with
             | context [match _ with _ => _ end] => fail
             | _ => destruct c; cbn; try discriminate
             end
         end.

Section WpRequest.

Context {D : Type} (env : Env).

Lemma encodeable_value_null_only (datatype : option Datatype) (value : string)
      (indx : option Z) :
  value <> "null" ->
  value_class datatype indx = None ->
  exists msg,
    Write.encodeable_value env datatype value indx = Raise (TypeError msg).
Proof.
  intros Hne Hvc. unfold Write.encodeable_value, Write.isinstance_str.
  destruct (String.eqb_spec value "null") as [-> | _]; [now elim Hne |].
  destruct datatype as [[base sub | subtype | name] |]; cbn in Hvc;
    try discriminate; try (eexists; reflexivity).
  destruct indx as [i |]; [| eexists; reflexivity].
  destruct (i =? 0); [discriminate |].
  destruct (issubclass_Atomic subtype); [discriminate |].
  eexists. reflexivity.
Qed.

Lemma encodeable_value_class (datatype : option Datatype) (value : string)
      (indx : option Z) (v : WValue) :
  Write.encodeable_value env datatype value indx = Return v ->
  (value = "null" /\ v = WNull)
  \/ (value <> "null"
      /\ exists cls arg,
          value_class datatype indx = Some cls
          /\ issubclass_Atomic cls = true
          /\ v = WObj cls arg).
Proof.
  unfold Write.encodeable_value, Write.construct, Write.isinstance_str.
  destruct (String.eqb_spec value "null") as [-> | Hne].
  - intros H. injection H as <-. now left.
  - intros H. right. split; [exact Hne |]. revert H.
    destruct datatype as [[base sub | subtype | name] |]; try discriminate.
    + match goal with
      | |- res_bind ?c _ = _ -> _ => destruct c as [a | e]; cbn; [| discriminate]
      end.
      destruct (constructor_refuses env (Atomic base sub) a); [discriminate |].
      intros H. injection H as <-. eauto.
    + destruct indx as [i |]; [| discriminate]. cbn [value_class].
      destruct (i =? 0).
      * destruct (constructor_refuses env _ _); [discriminate |].
        intros H. injection H as <-. eauto.
      * destruct (issubclass_Atomic subtype) eqn:Hsub; cbn; [| discriminate].
        destruct (constructor_refuses env _ _); [discriminate |].
        intros H. injection H as <-. eauto.
Qed.

(** X23.  The value of every WriteProperty request that [build_wp_request]
    builds is [Null()], for the token null and only for it, or else an
    instance of the atomic class that the property's datatype and the array
    index determine: the datatype itself when it is atomic, [Integer] for an
    array at index 0, the atomic element type of an array at another index.
    The command token itself is never placed in a request.  Where there is no
    such class (no datatype, a constructed datatype, an array named without
    index, constructed elements) the property can be written with null only:
    a command that builds a request with the token null ends in TypeError
    with any other token in its place. *)
Theorem wp_value_is_null_or_atomic :
  (forall (args : list string) (vendor_id : Z) (w : World D)
          (request : WritePropertyRequest),
      fst (Write.build_wp_request env args vendor_id w) = Return request ->
      (List.nth 4%nat args "" = "null" /\ wp_propertyValue request = WNull)
      \/ (List.nth 4%nat args "" <> "null"
          /\ exists cls arg,
              value_class
                (get_datatype env (fst (wp_objectIdentifier request))
                              (wp_propertyIdentifier request) vendor_id)
                (wp_propertyArrayIndex request)
              = Some cls
              /\ issubclass_Atomic cls = true
              /\ wp_propertyValue request = WObj cls arg))
  /\ (forall (addr obj_type obj_inst prop_id value : string)
             (rest : list string) (vendor_id : Z) (w : World D)
             (request0 : WritePropertyRequest),
         fst (Write.build_wp_request env
                (addr :: obj_type :: obj_inst :: prop_id :: "null" :: rest)
                vendor_id w)
         = Return request0 ->
         value <> "null" ->
         value_class
           (get_datatype env (fst (wp_objectIdentifier request0))
                         (wp_propertyIdentifier request0) vendor_id)
           (wp_propertyArrayIndex request0)
         = None ->
         exists msg,
           fst (Write.build_wp_request env
                  (addr :: obj_type :: obj_inst :: prop_id :: value :: rest)
                  vendor_id w)
           = Raise (TypeError msg)).
Proof.
  split.
  - intros args vendor_id w request.
    destruct args as [| addr [| obj_type [| obj_inst [| prop_id rest]]]];
      try discriminate.
    unfold Write.build_wp_request. run.
    destruct (Write.wp_ident obj_type) as [ot | e]; cbn; [| discriminate].
    destruct (int obj_inst) as [oi | e]; cbn; [| discriminate].
    destruct rest as [| value rest]; cbn; [discriminate |].
    match goal with
    | |- fst (let (r, w') := ?c in _) = _ -> _ =>
        destruct c as [[indx | e] w1]; cbn; [| discriminate]
    end.
    match goal with
    | |- fst (let (r, w') := ?c in _) = _ -> _ =>
        destruct c as [[priority | e] w2]; cbn; [| discriminate]
    end.
    destruct (Write.wp_ident prop_id) as [pid | e]; cbn; [| discriminate].
    destruct (Write.encodeable_value env (get_datatype env ot pid vendor_id)
                value indx) as [v | e] eqn:Hv; cbn; [| discriminate].
    destruct (Address env addr) as [dst | e]; cbn; [| discriminate].
    destruct (cast_in_refuses env v); cbn; [discriminate |].
    intros H. injection H as <-. cbn.
    exact (encodeable_value_class _ _ _ _ Hv).
  - intros addr obj_type obj_inst prop_id value rest vendor_id w request0 H0
           Hne.
    revert H0. unfold Write.build_wp_request.
    replace (List.length
               (addr :: obj_type :: obj_inst :: prop_id :: "null" :: rest))
      with (List.length
              (addr :: obj_type :: obj_inst :: prop_id :: value :: rest))
      by reflexivity.
    cbn [List.nth]. run.
    destruct (Write.wp_ident obj_type) as [ot | e]; cbn; [| discriminate].
    destruct (int obj_inst) as [oi | e]; cbn; [| discriminate].
    match goal with
    | |- fst (let (r, w') := ?c in _) = _ -> _ =>
        destruct c as [[indx | e] w1]; cbn; [| discriminate]
    end.
    match goal with
    | |- fst (let (r, w') := ?c in _) = _ -> _ =>
        destruct c as [[priority | e] w2]; cbn; [| discriminate]
    end.
    destruct (Write.wp_ident prop_id) as [pid | e]; cbn; [| discriminate].
    destruct (Address env addr) as [dst | e]; cbn; [| discriminate].
    destruct (cast_in_refuses env WNull); cbn; [discriminate |].
    intros H. injection H as <-. cbn. intros Hvc.
    destruct (encodeable_value_null_only _ _ _ Hne Hvc) as [msg ->].
    cbn. eexists. reflexivity.
Qed.

(** X24.  The array index of a built WriteProperty request is the sixth
    token read by [int]; there is none when the command has fewer than six
    tokens or when the sixth token is the placeholder "-". *)
Theorem wp_index_rule :
  forall (args : list string) (vendor_id : Z) (w : World D)
         (request : WritePropertyRequest),
    fst (Write.build_wp_request env args vendor_id w) = Return request ->
    ((List.length args < 6)%nat -> wp_propertyArrayIndex request = None)
    /\ ((6 <= List.length args)%nat ->
        (List.nth 5%nat args "" = "-" -> wp_propertyArrayIndex request = None)
        /\ (List.nth 5%nat args "" <> "-" ->
            exists i, int (List.nth 5%nat args "") = Return i
                      /\ wp_propertyArrayIndex request = Some i)).
Proof.
  intros args vendor_id w request.
  destruct args as [| addr [| obj_type [| obj_inst [| prop_id rest]]]];
    try discriminate.
  destruct rest as [| value [| tok5 rest]].
  - unfold Write.build_wp_request. run. crack_cases.
  - unfold Write.build_wp_request. run.
    crack_cases; intros H; injection H as <-; cbn; split; [reflexivity | lia].
  - unfold Write.build_wp_request.
    replace (Nat.leb 6 (List.length
               (addr :: obj_type :: obj_inst :: prop_id :: value :: tok5 :: rest)))
      with true by reflexivity.
    cbn [List.nth]. run.
    destruct (Write.wp_ident obj_type) as [ot | e]; cbn; [| discriminate].
    destruct (int obj_inst) as [oi | e]; cbn; [| discriminate].
    destruct (String.eqb_spec tok5 "-") as [-> | Hne]; cbn.
    + crack_cases; intros H; injection H as <-; cbn;
        (split; [lia |]); intros _;
        (split; [reflexivity | intros Hx; now elim Hx]).
    + destruct (int tok5) as [i | e]; cbn; [| discriminate].
      crack_cases; intros H; injection H as <-; cbn;
        (split; [lia |]); intros _;
        (split; [intros Hx; now elim Hne | intros _; exists i; auto]).
Qed.

End WpRequest.

(** 72.5 is written to a Real property as [Real(72.5)]; a priority array
    named without index takes null and refuses 72.5. *)
Lemma wp_value_is_null_or_atomic_witness :
  ((List.nth 4%nat (split "2:5 analogValue 1 presentValue 72.5") "" = "null"
    /\ wp_propertyValue Sample.av1_wp_request = WNull)
   \/ (List.nth 4%nat (split "2:5 analogValue 1 presentValue 72.5") ""
       <> "null"
       /\ exists cls arg,
           value_class
             (get_datatype Sample.env
                (fst (wp_objectIdentifier Sample.av1_wp_request))
                (wp_propertyIdentifier Sample.av1_wp_request) 0)
             (wp_propertyArrayIndex Sample.av1_wp_request)
           = Some cls
           /\ issubclass_Atomic cls = true
           /\ wp_propertyValue Sample.av1_wp_request = WObj cls arg))
  /\ exists msg,
      fst (Write.build_wp_request Sample.env
             [ "2:5"; "analogValue"; "1"; "priorityArray"; "72.5" ] 0
             (Sample.world tt))
      = Raise (TypeError msg).
Proof.
  split.
  - exact (proj1 (wp_value_is_null_or_atomic Sample.env)
             (split "2:5 analogValue 1 presentValue 72.5") 0 (Sample.world tt)
             Sample.av1_wp_request eq_refl).
  - refine (proj2 (wp_value_is_null_or_atomic Sample.env)
              "2:5" "analogValue" "1" "priorityArray" "72.5" [] 0
              (Sample.world tt)
              {| wp_objectIdentifier := (Name "analogValue", 1);
                 wp_propertyIdentifier := Name "priorityArray";
                 wp_pduDestination := "2:5";
                 wp_propertyValue := WNull;
                 wp_propertyArrayIndex := None;
                 wp_priority := None |} eq_refl _ eq_refl).
    discriminate.
Defined.

Lemma wp_index_rule_witness :
  (exists i, int "3" = Return i /\ Some 3 = Some i)
  /\ wp_propertyArrayIndex
       {| wp_objectIdentifier := (Name "analogValue", 1);
          wp_propertyIdentifier := Name "presentValue";
          wp_pduDestination := "2:5";
          wp_propertyValue :=
            WObj (Atomic Real None) Sample.seventy_two_and_a_half;
          wp_propertyArrayIndex := None;
          wp_priority := Some 8 |}
     = None.
Proof.
  split.
  - destruct (wp_index_rule Sample.env
                (split "2:5 analogValue 1 priorityArray null 3") 0
                (Sample.world tt)
                {| wp_objectIdentifier := (Name "analogValue", 1);
                   wp_propertyIdentifier := Name "priorityArray";
                   wp_pduDestination := "2:5";
                   wp_propertyValue := WNull;
                   wp_propertyArrayIndex := Some 3;
                   wp_priority := None |} eq_refl) as [_ H].
    destruct (H ltac:(vm_compute; lia)) as [_ Hsome].
    exact (Hsome ltac:(discriminate)).
  - destruct (wp_index_rule Sample.env
                (split "2:5 analogValue 1 presentValue 72.5 - 8") 0
                (Sample.world tt)
                {| wp_objectIdentifier := (Name "analogValue", 1);
                   wp_propertyIdentifier := Name "presentValue";
                   wp_pduDestination := "2:5";
                   wp_propertyValue :=
                     WObj (Atomic Real None) Sample.seventy_two_and_a_half;
                   wp_propertyArrayIndex := None;
                   wp_priority := Some 8 |} eq_refl) as [_ H].
    destruct (H ltac:(vm_compute; lia)) as [Hdash _].
    exact (Hdash eq_refl).
Defined.
